(** * AI Interview Coach: the session state machine and the Gemini gateway

    A shallow embedding of [main.py].  The script is a Streamlit page: the
    framework re-executes [interview_page] from the top after every user
    interaction, and everything that survives from one execution to the next
    lives in [st.session_state].  The development follows the file:

    - Python strings and the few string primitives the script uses
      ([str.strip], [str.split], [in], [re.search], [int], [format]);
    - Python's [int / int] and the [.1f] format, on exact integers;
    - the three gateway functions around [model.generate_content];
    - [st.session_state] and one execution of [interview_page];
    - the properties of the session.

    Characters are code points below 256 (one [ascii] each), on which
    Python's [str.isspace] and the regular expression class [\d] are the
    predicates [isspace] and [isdigit] below. *)

From Stdlib Require Import ZArith List String Ascii Bool Lia.
From Stdlib Require Import DecimalString.
From Stdlib Require Import Floats.SpecFloat.
Import ListNotations.

Open Scope string_scope.
Open Scope Z_scope.

(* ================================================================= *)
(** ** Python strings *)

Module Py.

(** [bool(s)] for a string: the empty string is falsy. *)
Definition truthy (s : string) : bool :=
  match s with
  | EmptyString => false
  | String _ _ => true
  end.

(** [c.isspace()] on the code points below 256: TAB, LF, VT, FF, CR,
    FS, GS, RS, US, SPACE, NEL and NBSP. *)
Definition isspace (c : ascii) : bool :=
  let n := N_of_ascii c in
  ((9 <=? n)%N && (n <=? 13)%N) || ((28 <=? n)%N && (n <=? 32)%N)
  || (n =? 133)%N || (n =? 160)%N.

(** [\d] on the code points below 256: the ten ASCII digits. *)
Definition isdigit (c : ascii) : bool :=
  let n := N_of_ascii c in (48 <=? n)%N && (n <=? 57)%N.

Fixpoint lstrip (s : string) : string :=
  match s with
  | EmptyString => EmptyString
  | String c r => if isspace c then lstrip r else s
  end.

Fixpoint rstrip (s : string) : string :=
  match s with
  | EmptyString => EmptyString
  | String c r =>
      match rstrip r with
      | EmptyString => if isspace c then EmptyString else String c EmptyString
      | r' => String c r'
      end
  end.

(** [s.strip()] *)
Definition strip (s : string) : string := rstrip (lstrip s).

Definition newline : ascii := ascii_of_nat 10.
Definition nl : string := String newline EmptyString.
Definition dq : string := String (ascii_of_nat 34) EmptyString.

(** [s.split('\n')]: the pieces between line feeds, empty pieces kept;
    the empty string splits into one empty piece. *)
Fixpoint split_lines (s : string) : list string :=
  match s with
  | EmptyString => [EmptyString]
  | String c r =>
      if Ascii.eqb c newline then EmptyString :: split_lines r
      else match split_lines r with
           | [] => [String c EmptyString]
           | l :: ls => String c l :: ls
           end
  end.

(** [sep.join(parts)] *)
Fixpoint join (sep : string) (parts : list string) : string :=
  match parts with
  | [] => EmptyString
  | [p] => p
  | p :: ps => p ++ sep ++ join sep ps
  end.

(** [s.startswith(p)], returning what follows the prefix. *)
Fixpoint strip_prefix (p s : string) : option string :=
  match p, s with
  | EmptyString, _ => Some s
  | String a p', String b s' =>
      if Ascii.eqb a b then strip_prefix p' s' else None
  | String _ _, EmptyString => None
  end.

(** [p in s]: [p] starts at some position of [s]. *)
Fixpoint contains (p s : string) : bool :=
  match strip_prefix p s with
  | Some _ => true
  | None =>
      match s with
      | EmptyString => false
      | String _ s' => contains p s'
      end
  end.

(** The longest run of digits at the start of [s], and the rest. *)
Fixpoint span_digits (s : string) : string * string :=
  match s with
  | EmptyString => (EmptyString, EmptyString)
  | String c r =>
      if isdigit c
      then let '(d, rest) := span_digits r in (String c d, rest)
      else (EmptyString, s)
  end.

(** The integer that a string of ASCII digits writes in base ten. *)
Fixpoint int_acc (acc : Z) (d : string) : Z :=
  match d with
  | EmptyString => acc
  | String c r => int_acc (10 * acc + (Z.of_N (N_of_ascii c) - 48)) r
  end.

Definition decimal (d : string) : Z := int_acc 0 d.

(** CPython's default limit on the number of digits of a decimal string
    ([sys.int_info.default_max_str_digits]); leading zeros count. *)
Definition int_max_str_digits : Z := 4300.

(** [int(d)] for a string of ASCII digits; [None] is the [ValueError]
    raised for a string of more digits than the limit. *)
Definition int (d : string) : option Z :=
  if Z.of_nat (String.length d) <=? int_max_str_digits then Some (decimal d)
  else None.

(** [s * n] for a string [s]. *)
Fixpoint repeat_string (s : string) (n : nat) : string :=
  match n with
  | O => EmptyString
  | S n => s ++ repeat_string s n
  end.

(** [str(n)] for an integer. *)
Definition str (n : Z) : string := NilZero.string_of_int (Z.to_int n).

(** [len(l)] *)
Definition len {A} (l : list A) : Z := Z.of_nat (List.length l).

(** [l[:n]]: a negative bound counts from the end. *)
Definition slice_to {A} (l : list A) (n : Z) : list A :=
  if 0 <=? n then firstn (Z.to_nat n) l
  else firstn (Z.to_nat (len l + n)) l.

(** [[x] * n]: empty when [n] is not positive. *)
Definition replicate {A} (x : A) (n : Z) : list A := repeat x (Z.to_nat n).

(** [l[i]]: a negative index counts from the end; [None] is [IndexError]. *)
Definition index {A} (l : list A) (i : Z) : option A :=
  if 0 <=? i then nth_error l (Z.to_nat i)
  else if 0 <=? len l + i then nth_error l (Z.to_nat (len l + i))
  else None.

(** *** [re.search(r"Score: (\d+)/10", s)]

    At a given position the pattern matches when the text reads
    [Score: ], then digits, then [/10].  The greedy [\d+] takes the whole
    run of digits; giving a digit back cannot help, since [/] is not a
    digit.  [search] returns the capture of the leftmost match. *)
Definition match_score_at (s : string) : option string :=
  match strip_prefix "Score: " s with
  | None => None
  | Some r =>
      let '(d, rest) := span_digits r in
      match d with
      | EmptyString => None
      | String _ _ =>
          match strip_prefix "/10" rest with
          | Some _ => Some d
          | None => None
          end
      end
  end.

Fixpoint search_score (s : string) : option string :=
  match match_score_at s with
  | Some d => Some d
  | None =>
      match s with
      | EmptyString => None
      | String _ s' => search_score s'
      end
  end.

End Py.

(* ================================================================= *)
(** ** Python floats, as far as the script needs them

    The only float of the script is [total_score / num_answered], printed
    with [.1f].  Both operations are correctly rounded in CPython, so they
    are functions of exact integers: the quotient of two ints is the
    binary64 number nearest to the rational quotient (ties to even), and
    [.1f] prints the multiple of one tenth nearest to that binary64 number
    (ties to even).  A finite non-negative binary64 number is kept as
    [mant * 2 ^ expo]. *)

Module Float.

Record t : Type := mk { mant : Z; expo : Z }.

Definition zero : t := mk 0 0.

(** The integer nearest to [n / d], ties to even ([0 <= n], [0 < d]). *)
Definition round_half_even (n d : Z) : Z :=
  let q := n / d in
  match 2 * (n mod d) ?= d with
  | Lt => q
  | Gt => q + 1
  | Eq => if Z.even q then q else q + 1
  end.

(** [floor (log2 (a / b))] for positive [a] and [b]. *)
Definition floor_log2_quot (a b : Z) : Z :=
  let d := Z.log2 a - Z.log2 b in
  if b * 2 ^ Z.max 0 d <=? a * 2 ^ Z.max 0 (- d) then d else d - 1.

(** The exponent of the last place of the binary64 number nearest to
    [a / b]: 53 significant bits, and never below the subnormal [-1074]. *)
Definition ulp_exponent (a b : Z) : Z :=
  Z.max (floor_log2_quot a b - 52) (-1074).

(** [a / b] for ints [0 <= a] and [0 < b]; [None] is [OverflowError]. *)
Definition true_div (a b : Z) : option t :=
  if a =? 0 then Some zero
  else
    let e := ulp_exponent a b in
    let m := round_half_even (a * 2 ^ Z.max 0 (- e)) (b * 2 ^ Z.max 0 e) in
    if 2 ^ 1024 <=? m * 2 ^ Z.max 0 e then None else Some (mk m e).

(** The number of tenths that [.1f] prints for [x]. *)
Definition tenths (x : t) : Z :=
  round_half_even (10 * mant x * 2 ^ Z.max 0 (expo x))
                  (2 ^ Z.max 0 (- expo x)).

(** A number of tenths written with one decimal place. *)
Definition one_decimal (n : Z) : string :=
  Py.str (n / 10) ++ "." ++ Py.str (n mod 10).

(** [f"{x:.1f}"] *)
Definition format_1f (x : t) : string := one_decimal (tenths x).

(** The same quotient computed by the Standard Library's specification of
    IEEE 754 division, for comparison on operands below [2 ^ 53]. *)
Definition ieee_div (a b : Z) : spec_float :=
  SFdiv 53 1024 (binary_normalize 53 1024 a 0 false)
                (binary_normalize 53 1024 b 0 false).

Definition same_value (x : option t) (y : spec_float) : bool :=
  match x, y with
  | Some (mk m e), S754_zero false => m =? 0
  | Some (mk m e), S754_finite false m' e' =>
      m * 2 ^ (e - Z.min e e') =? Z.pos m' * 2 ^ (e' - Z.min e e')
  | _, _ => false
  end.

Definition agree_upto (amax bmax : nat) : bool :=
  forallb (fun a =>
    forallb (fun b => same_value (true_div (Z.of_nat a) (Z.of_nat b))
                                 (ieee_div (Z.of_nat a) (Z.of_nat b)))
            (seq 1 bmax))
    (seq 0 amax).

End Float.

(* ================================================================= *)
(** ** What a run of the script shows and calls

    The calls that leave the process and the notices put on the page are
    kept as a trace, in the order the script makes them.  Notices keep the
    bytes of the source text. *)

Inductive level : Type := Info | Success | Warning | Error.

Inductive event : Type :=
| GenerateContent (prompt : string)      (* model.generate_content(prompt) *)
| Listen                                 (* recognizer.listen(source, ...) *)
| Notice (lvl : level) (msg : string).   (* st.info / success / warning / error *)

(** What [model.generate_content(prompt)] does when it is called: the call,
    or reading [response.text], raises an exception with message [e]; the
    response has no parts (blocked); or the response has text. *)
Inductive reply : Type :=
| Raises (e : string)
| Blocked
| Text (text : string).

(** Exceptions that no [try] of the script catches. *)
Inductive exn : Type :=
| AttributeError (name : string)
| IndexError
| ValueError
| OverflowError.

(** One entry of [all_responses]: a dict with the keys ["question"],
    ["answer"] and ["feedback"]. *)
Record AnswerRecord : Type := mkRecord {
  question : string;
  answer : string;
  feedback : string
}.

(* ================================================================= *)
(** ** The Gemini gateway *)

Definition technical : string := "Technical Interview".
Definition behavioral : string := "Behavioral Interview".

Definition block_sentinel : string :=
  "Could not generate questions due to a block.".
Definition error_sentinel : string :=
  "Could not generate questions. Check your API key and internet connection.".

Definition questions_prompt
    (job_role interview_type : string) (num_questions : Z) (domain : string)
  : string :=
  let prompt :=
    "As an expert interviewer, generate " ++ Py.str num_questions
    ++ " questions for a " ++ job_role ++ " " ++ interview_type ++ "." in
  let prompt :=
    if Py.truthy domain
    then prompt ++ " Focus on the " ++ domain ++ " domain."
    else prompt in
  let prompt :=
    if String.eqb interview_type technical
    then prompt ++ " Include questions on algorithms, data structures, and core concepts relevant to the role."
    else if String.eqb interview_type behavioral
    then prompt ++ " Ensure these are STAR-format behavioral questions."
    else prompt in
  prompt ++ " Provide only the questions, one per line, without any numbering, bullet points, or introductory/concluding remarks.".

(** [[q.strip() for q in questions_text.split('\n') if q.strip()]] *)
Definition question_lines (questions_text : string) : list string :=
  map Py.strip
      (filter (fun q => Py.truthy (Py.strip q)) (Py.split_lines questions_text)).

Definition generate_llm_questions_gemini
    (job_role interview_type : string) (num_questions : Z) (domain : string)
    (response : reply)
  : list string * list event :=
  let prompt := questions_prompt job_role interview_type num_questions domain in
  match response with
  | Blocked =>
      (Py.replicate block_sentinel num_questions,
       [GenerateContent prompt;
        Notice Error "The response for generating questions was blocked. Please try again."])
  | Text text =>
      let questions_text := Py.strip text in
      let questions := question_lines questions_text in
      (Py.slice_to questions num_questions, [GenerateContent prompt])
  | Raises e =>
      (Py.replicate error_sentinel num_questions,
       [GenerateContent prompt;
        Notice Error ("Error generating questions with Gemini: " ++ e)])
  end.

Definition evaluation_prompt
    (job_role interview_type question user_answer domain : string) : string :=
  let criteria :=
    if String.eqb interview_type technical
    then "technical accuracy, problem-solving approach, and clarity."
    else "adherence to STAR format (Situation, Task, Action, Result), relevance, and clarity." in
  let context :=
    "The candidate is interviewing for a " ++ job_role
    ++ " role. The question is: '" ++ question ++ "'." in
  let context :=
    if Py.truthy domain
    then context ++ " The domain is " ++ domain ++ "."
    else context in
  Py.nl
  ++ "    You are an experienced interviewer. Evaluate the candidate's answer." ++ Py.nl
  ++ "    Context: " ++ context ++ Py.nl
  ++ "    Question: " ++ Py.dq ++ question ++ Py.dq ++ Py.nl
  ++ "    Candidate's Answer: " ++ Py.dq ++ user_answer ++ Py.dq ++ Py.nl
  ++ "    " ++ Py.nl
  ++ "    Provide:" ++ Py.nl
  ++ "    1. A brief feedback comment on strengths and weaknesses, focusing on "
       ++ criteria ++ "." ++ Py.nl
  ++ "    2. A score for the answer, formatted exactly as: "
       ++ Py.dq ++ "Score: [score]/10" ++ Py.dq ++ "." ++ Py.nl
  ++ "    3. A suggestion for improvement." ++ Py.nl
  ++ "    " ++ Py.nl
  ++ "    Use these exact headings: " ++ Py.dq ++ "Feedback:" ++ Py.dq ++ ", "
       ++ Py.dq ++ "Score:" ++ Py.dq ++ ", and "
       ++ Py.dq ++ "Improvement Suggestion:" ++ Py.dq ++ "." ++ Py.nl
  ++ "    ".

Definition evaluate_llm_answer_gemini
    (job_role interview_type question user_answer domain : string)
    (response : reply)
  : string * list event :=
  let prompt :=
    evaluation_prompt job_role interview_type question user_answer domain in
  match response with
  | Blocked =>
      ("Evaluation was blocked. The answer might contain sensitive content.",
       [GenerateContent prompt])
  | Text text => (Py.strip text, [GenerateContent prompt])
  | Raises e =>
      ("Could not evaluate answer due to an error.",
       [GenerateContent prompt;
        Notice Error ("Error evaluating answer with Gemini: " ++ e)])
  end.

(** The text that the [for] loop over [responses_with_feedback] appends
    for one record. *)
Definition interaction (q_obj : AnswerRecord) : string :=
  Py.nl ++ "---" ++ Py.nl ++ "Question: " ++ question q_obj ++ Py.nl
  ++ "Candidate's Answer: " ++ answer q_obj ++ Py.nl
  ++ "Feedback Given: " ++ feedback q_obj.

(** The [for] loop over [responses_with_feedback], carrying
    [total_score], [num_answered] and [report_prompt_parts]; [inr] when
    [int] raises, which ends the loop and the function. *)
Fixpoint score_loop (responses_with_feedback : list AnswerRecord)
    (total_score num_answered : Z) (report_prompt_parts : list string)
  : Z * Z * list string + exn :=
  match responses_with_feedback with
  | [] => inl (total_score, num_answered, report_prompt_parts)
  | q_obj :: rest =>
      match Py.search_score (feedback q_obj) with
      | Some group1 =>
          match Py.int group1 with
          | Some n =>
              score_loop rest (total_score + n) (num_answered + 1)
                         (report_prompt_parts ++ [interaction q_obj])%list
          | None => inr ValueError
          end
      | None =>
          score_loop rest total_score num_answered
                     (report_prompt_parts ++ [interaction q_obj])%list
      end
  end.

(** [(total_score / num_answered) if num_answered > 0 else 0]; the int [0]
    prints as the float zero under [.1f]. *)
Definition avg_score (total_score num_answered : Z) : option Float.t :=
  if 0 <? num_answered then Float.true_div total_score num_answered
  else Some Float.zero.

Definition report_header (job_role interview_type : string) : string :=
  "Generate a final interview summary report for a " ++ job_role ++ " "
  ++ interview_type ++ " based on the following interactions:".

Definition average_line (avg : string) : string :=
  Py.nl ++ "---" ++ Py.nl ++ "Based on all interactions (average score: "
  ++ avg ++ "/10), provide a comprehensive final report with these sections:".

Definition report_sections : list string :=
  [ "1. **Overall Strengths** (in bullet points)";
    "2. **Overall Areas for Improvement** (in bullet points)";
    "3. **Suggested Resources** for further learning";
    "4. A final overall rating formatted as: '**Final Score: [score]/10**'" ].

(** [full_prompt] of [generate_final_report_gemini]; [inr] when [int]
    or the division raises. *)
Definition report_prompt (job_role interview_type : string)
    (responses_with_feedback : list AnswerRecord) : string + exn :=
  let report_prompt_parts := [report_header job_role interview_type] in
  match score_loop responses_with_feedback 0 0 report_prompt_parts with
  | inr e => inr e
  | inl (total_score, num_answered, report_prompt_parts) =>
      match avg_score total_score num_answered with
      | None => inr OverflowError
      | Some avg =>
          let report_prompt_parts :=
            (report_prompt_parts ++ [average_line (Float.format_1f avg)])%list in
          let report_prompt_parts :=
            (report_prompt_parts ++ report_sections)%list in
          inl (Py.join Py.nl report_prompt_parts)
      end
  end.

Definition generate_final_report_gemini (job_role interview_type : string)
    (responses_with_feedback : list AnswerRecord) (response : reply)
  : (string + exn) * list event :=
  match report_prompt job_role interview_type responses_with_feedback with
  | inr e => (inr e, [])
  | inl full_prompt =>
      match response with
      | Blocked =>
          (inl "The final report was blocked due to safety settings.",
           [GenerateContent full_prompt])
      | Text text => (inl (Py.strip text), [GenerateContent full_prompt])
      | Raises e =>
          (inl "Could not generate final report.",
           [GenerateContent full_prompt;
            Notice Error ("Error generating final report with Gemini: " ++ e)])
      end
  end.

(* ================================================================= *)
(** ** The speech adapter *)

(** What the microphone and the recognition service do when asked:
    [opened] tells whether the device was opened before the failure. *)
Inductive heard : Type :=
| Recognized (text : string)
| UnknownValueError
| RequestError
| OtherError (opened : bool) (e : string).

Definition recognize_speech_live (h : heard) : string * list event :=
  let listening := [Notice Info "🎙️ Listening... Speak now!"; Listen] in
  match h with
  | Recognized text =>
      (text, (listening ++ [Notice Success ("🗣️ You said: " ++ text)])%list)
  | UnknownValueError =>
      ("", (listening ++ [Notice Warning "⚠️ Could not understand your response."])%list)
  | RequestError =>
      ("", (listening ++ [Notice Error "⚠️ Speech recognition service unavailable."])%list)
  | OtherError opened e =>
      ("", ((if opened then listening else [])
            ++ [Notice Error ("❌ Microphone Error: " ++ e)])%list)
  end.

(* ================================================================= *)
(** ** [st.session_state]

    The store is a bag of attributes.  Each field below is one attribute:
    [None] when the attribute has not been assigned (or was deleted),
    [Some v] when it holds [v].  [final_report] holds Python's [None] or a
    string, hence the two options. *)

Record session_state : Type := mkState {
  interview_started : option bool;
  all_responses : option (list AnswerRecord);
  current_question_idx : option Z;
  questions : option (list string);
  current_user_answer : option string;
  final_report : option (option string);
  job_role : option string;
  domain : option string;
  interview_type : option string;
  num_questions : option Z
}.

(** The store of a new browser session, and of one whose keys were all
    deleted. *)
Definition empty : session_state :=
  mkState None None None None None None None None None None.

Definition set_interview_started (v : bool) (s : session_state) :=
  mkState (Some v) (all_responses s) (current_question_idx s) (questions s)
    (current_user_answer s) (final_report s) (job_role s) (domain s)
    (interview_type s) (num_questions s).
Definition set_all_responses (v : list AnswerRecord) (s : session_state) :=
  mkState (interview_started s) (Some v) (current_question_idx s) (questions s)
    (current_user_answer s) (final_report s) (job_role s) (domain s)
    (interview_type s) (num_questions s).
Definition set_current_question_idx (v : Z) (s : session_state) :=
  mkState (interview_started s) (all_responses s) (Some v) (questions s)
    (current_user_answer s) (final_report s) (job_role s) (domain s)
    (interview_type s) (num_questions s).
Definition set_questions (v : list string) (s : session_state) :=
  mkState (interview_started s) (all_responses s) (current_question_idx s)
    (Some v) (current_user_answer s) (final_report s) (job_role s) (domain s)
    (interview_type s) (num_questions s).
Definition set_current_user_answer (v : string) (s : session_state) :=
  mkState (interview_started s) (all_responses s) (current_question_idx s)
    (questions s) (Some v) (final_report s) (job_role s) (domain s)
    (interview_type s) (num_questions s).
Definition set_final_report (v : option string) (s : session_state) :=
  mkState (interview_started s) (all_responses s) (current_question_idx s)
    (questions s) (current_user_answer s) (Some v) (job_role s) (domain s)
    (interview_type s) (num_questions s).
Definition set_job_role (v : string) (s : session_state) :=
  mkState (interview_started s) (all_responses s) (current_question_idx s)
    (questions s) (current_user_answer s) (final_report s) (Some v) (domain s)
    (interview_type s) (num_questions s).
Definition set_domain (v : string) (s : session_state) :=
  mkState (interview_started s) (all_responses s) (current_question_idx s)
    (questions s) (current_user_answer s) (final_report s) (job_role s)
    (Some v) (interview_type s) (num_questions s).
Definition set_interview_type (v : string) (s : session_state) :=
  mkState (interview_started s) (all_responses s) (current_question_idx s)
    (questions s) (current_user_answer s) (final_report s) (job_role s)
    (domain s) (Some v) (num_questions s).
Definition set_num_questions (v : Z) (s : session_state) :=
  mkState (interview_started s) (all_responses s) (current_question_idx s)
    (questions s) (current_user_answer s) (final_report s) (job_role s)
    (domain s) (interview_type s) (Some v).

(* ================================================================= *)
(** ** One execution of the script

    A run reads and writes the store, adds to the trace, and ends in one of
    three ways: it reaches the end of the script, it calls [st.rerun()]
    (which stops it at once and asks for another run), or an exception
    escapes. *)

Inductive stop : Type :=
| RerunException
| Uncaught (e : exn).

Definition M (A : Type) : Type :=
  session_state -> (A + stop) * session_state * list event.

Definition ret {A} (a : A) : M A := fun s => (inl a, s, []).

Definition bind {A B} (m : M A) (k : A -> M B) : M B :=
  fun s =>
    match m s with
    | (inl a, s1, t1) =>
        let '(r, s2, t2) := k a s1 in (r, s2, (t1 ++ t2)%list)
    | (inr e, s1, t1) => (inr e, s1, t1)
    end.

Notation "x <- m ;; k" := (bind m (fun x => k))
  (at level 61, m at next level, right associativity).
Notation "m ;; k" := (bind m (fun _ => k))
  (at level 61, right associativity).

(** Reading an attribute; an absent one raises [AttributeError]. *)
Definition attr {A} (name : string) (field : session_state -> option A)
  : M A :=
  fun s =>
    match field s with
    | Some v => (inl v, s, [])
    | None => (inr (Uncaught (AttributeError name)), s, [])
    end.

Definition assign (update : session_state -> session_state) : M unit :=
  fun s => (inl tt, update s, []).

Definition emit (t : list event) : M unit := fun s => (inl tt, s, t).

Definition notice (lvl : level) (msg : string) : M unit :=
  emit [Notice lvl msg].

Definition raise {A} (e : exn) : M A := fun s => (inr (Uncaught e), s, []).

(** [st.rerun()] *)
Definition rerun {A} : M A := fun s => (inr RerunException, s, []).

Definition when (b : bool) (m : M unit) : M unit := if b then m else ret tt.

(** The buttons of the page, by label. *)
Inductive button : Type :=
| StartInterview
| AnswerWithVoice
| SubmitAnswer
| SkipQuestion
| GenerateFinalReport
| StartNewInterview.

Definition button_eqb (a b : button) : bool :=
  match a, b with
  | StartInterview, StartInterview
  | AnswerWithVoice, AnswerWithVoice
  | SubmitAnswer, SubmitAnswer
  | SkipQuestion, SkipQuestion
  | GenerateFinalReport, GenerateFinalReport
  | StartNewInterview, StartNewInterview => true
  | _, _ => false
  end.

(** The two options of the radio widget. *)
Inductive mode : Type := BehavioralInterview | TechnicalInterview.

Definition mode_label (m : mode) : string :=
  match m with
  | BehavioralInterview => behavioral
  | TechnicalInterview => technical
  end.

(** A value of [st.slider(..., 3, 10, 5)]: an integer from 3 to 10. *)
Record slider : Type := mkSlider {
  slider_int : Z;
  slider_range : (3 <=? slider_int) && (slider_int <=? 10) = true
}.

(** What the framework and the outside world hand to one run: the button
    whose click caused the run, if any (a click causes one run, and each
    run carries at most one click); the values of the widgets; and what the
    model and the microphone do if the run calls them (a run calls each at
    most once). *)
Record run : Type := mkRun {
  clicked : option button;
  input_job_role : string;
  input_domain : string;
  input_mode : mode;
  input_num_questions : slider;
  input_answer : string;
  model : reply;
  microphone : heard
}.

(** [st.button(label)]: true in the run caused by a click on that button. *)
Definition st_button (u : run) (b : button) : bool :=
  match clicked u with
  | Some c => button_eqb c b
  | None => false
  end.

(* ================================================================= *)
(** ** [interview_page] *)

(** [if "interview_started" not in st.session_state: ...] *)
Definition initialize : M unit :=
  fun s =>
    match interview_started s with
    | Some _ => ret tt s
    | None =>
        (assign (set_interview_started false) ;;
         assign (set_all_responses []) ;;
         assign (set_current_question_idx 0) ;;
         assign (set_questions []) ;;
         assign (set_current_user_answer "") ;;
         assign (set_final_report None)) s
    end.

Definition start_failed_notice : string :=
  "Failed to generate questions. Please check your API key and try again.".

Definition empty_answer_warning : string :=
  "Please provide an answer before submitting.".

(** [questions and "Could not generate" not in questions[0]] *)
Definition generation_succeeded (questions : list string) : bool :=
  match questions with
  | [] => false
  | first :: _ => negb (Py.contains "Could not generate" first)
  end.

Definition setup_screen (u : run) : M unit :=
  assign (set_job_role (input_job_role u)) ;;
  assign (set_domain (input_domain u)) ;;
  assign (set_interview_type (mode_label (input_mode u))) ;;
  assign (set_num_questions (slider_int (input_num_questions u))) ;;
  when (st_button u StartInterview)
    (role <- attr "job_role" job_role ;;
     kind <- attr "interview_type" interview_type ;;
     count <- attr "num_questions" num_questions ;;
     dom <- attr "domain" domain ;;
     let '(generated, trace) :=
       generate_llm_questions_gemini role kind count dom (model u) in
     emit trace ;;
     assign (set_questions generated) ;;
     stored <- attr "questions" questions ;;
     if generation_succeeded stored
     then
       assign (set_interview_started true) ;;
       assign (set_current_question_idx 0) ;;
       assign (set_all_responses []) ;;
       assign (set_final_report None) ;;
       rerun
     else
       notice Error start_failed_notice).

(** [all_responses.append(record)] followed by the two assignments that end
    both the submit and the skip branch. *)
Definition append_response (record : AnswerRecord) : M unit :=
  responses <- attr "all_responses" all_responses ;;
  assign (set_all_responses (responses ++ [record])%list) ;;
  idx <- attr "current_question_idx" current_question_idx ;;
  assign (set_current_question_idx (idx + 1)) ;;
  assign (set_current_user_answer "").

Definition interview_screen (u : run) : M unit :=
  idx <- attr "current_question_idx" current_question_idx ;;
  asked <- attr "questions" questions ;;
  question <- match Py.index asked idx with
              | Some q => ret q
              | None => raise IndexError
              end ;;
  _ <- attr "current_user_answer" current_user_answer ;;
  let user_answer := input_answer u in
  when (st_button u AnswerWithVoice)
    (let '(text, trace) := recognize_speech_live (microphone u) in
     emit trace ;;
     assign (set_current_user_answer text) ;;
     rerun) ;;
  when (st_button u SubmitAnswer)
    (if Py.truthy user_answer
     then
       role <- attr "job_role" job_role ;;
       kind <- attr "interview_type" interview_type ;;
       dom <- attr "domain" domain ;;
       let '(feedback, trace) :=
         evaluate_llm_answer_gemini role kind question user_answer dom
                                    (model u) in
       emit trace ;;
       append_response (mkRecord question user_answer feedback) ;;
       rerun
     else
       notice Warning empty_answer_warning) ;;
  when (st_button u SkipQuestion)
    (append_response (mkRecord question "Skipped" "No feedback.") ;;
     rerun).

Definition interview_completed : string := "🎉 Interview Completed!".

Definition summary_screen (u : run) : M unit :=
  notice Success interview_completed ;;
  _ <- attr "all_responses" all_responses ;;
  report <- attr "final_report" final_report ;;
  match report with
  | None =>
      when (st_button u GenerateFinalReport)
        (role <- attr "job_role" job_role ;;
         kind <- attr "interview_type" interview_type ;;
         responses <- attr "all_responses" all_responses ;;
         match generate_final_report_gemini role kind responses (model u) with
         | (inl text, trace) =>
             emit trace ;;
             assign (set_final_report (Some text)) ;;
             rerun
         | (inr e, trace) => emit trace ;; raise e
         end)
  | Some _ => ret tt
  end ;;
  when (st_button u StartNewInterview)
    (assign (fun _ => empty) ;;
     rerun).

Definition interview_page (u : run) : M unit :=
  initialize ;;
  started <- attr "interview_started" interview_started ;;
  if negb started then setup_screen u
  else
    idx <- attr "current_question_idx" current_question_idx ;;
    asked <- attr "questions" questions ;;
    if idx <? Py.len asked then interview_screen u
    else summary_screen u.

(** The store and the trace a run leaves, and how it ended. *)
Definition after (u : run) (s : session_state) : session_state :=
  snd (fst (interview_page u s)).
Definition trace_of (u : run) (s : session_state) : list event :=
  snd (interview_page u s).
Definition ending (u : run) (s : session_state) : unit + stop :=
  fst (fst (interview_page u s)).

(** The stores a session can be in between two runs: the empty store of a
    new session, and what a run leaves behind, whatever the user, the model
    and the microphone do. *)
Inductive reachable : session_state -> Prop :=
| reach_new : reachable empty
| reach_run (s : session_state) (u : run) :
    reachable s -> reachable (after u s).

(** *** Phases

    The phase of a store is the screen that the next run shows for it,
    read off the three-way branch of [interview_page] and the test on
    [final_report] of the summary screen. *)
Inductive phase : Type := Setup | InProgress | Summary | Reported.

Definition phase_of (s : session_state) : phase :=
  match interview_started s with
  | Some true =>
      match current_question_idx s, questions s, final_report s with
      | Some idx, Some asked, Some report =>
          if idx <? Py.len asked then InProgress
          else match report with None => Summary | Some _ => Reported end
      | _, _, _ => Setup
      end
  | _ => Setup
  end.

(* ================================================================= *)
(** ** Vocabulary of the properties *)

(** What every store between two runs looks like: no attribute at all, or
    all ten, with the index equal to the number of responses and within
    the list of questions. *)
Inductive consistent : session_state -> Prop :=
| consistent_empty : consistent empty
| consistent_live (started : bool) rs qs cur fr jr d ty n :
    Py.len rs <= Py.len qs ->
    (started = false -> rs = [] /\ fr = None) ->
    (fr <> None -> Py.len rs = Py.len qs) ->
    (started = true -> qs <> [] /\ Py.len qs <= n) ->
    3 <= n <= 10 ->
    consistent (mkState (Some started) (Some rs) (Some (Py.len rs)) (Some qs)
                  (Some cur) (Some fr) (Some jr) (Some d) (Some ty) (Some n)).

(** The three assignments shared by the submit and the skip branch, as one
    step on the store. *)
Definition advanced (record : AnswerRecord) (s : session_state)
  : session_state :=
  match all_responses s, current_question_idx s with
  | Some responses, Some idx =>
      set_current_user_answer ""
        (set_current_question_idx (idx + 1)
           (set_all_responses (responses ++ [record])%list s))
  | _, _ => s
  end.

(** An advance: a click on skip, or a click on submit with a non-empty
    answer in the text area. *)
Definition is_advance (u : run) : bool :=
  match clicked u with
  | Some SkipQuestion => true
  | Some SubmitAnswer => Py.truthy (input_answer u)
  | _ => false
  end.

(** The question-generation call that a click on the start button makes. *)
Definition generation (u : run) : list string * list event :=
  generate_llm_questions_gemini (input_job_role u) (mode_label (input_mode u))
    (slider_int (input_num_questions u)) (input_domain u) (model u).

(** The store once the setup screen has read its four widgets. *)
Definition configured (u : run) (s : session_state) : session_state :=
  mkState (Some false) (Some []) (Some 0)
    (Some match questions s with Some qs => qs | None => [] end)
    (Some match current_user_answer s with Some a => a | None => "" end)
    (Some None)
    (Some (input_job_role u)) (Some (input_domain u))
    (Some (mode_label (input_mode u)))
    (Some (slider_int (input_num_questions u))).

(** Running the script once per item of [us], in order. *)
Definition run_all (us : list run) (s : session_state) : session_state :=
  fold_left (fun s u => after u s) us s.

(** *** Lines of a response *)

(** The specification's reading of the generated questions: the non-empty
    lines of the response. *)
Definition nonempty_lines (text : string) : list string :=
  filter Py.truthy (Py.split_lines text).

(** What the script keeps of a list of lines: each line without its
    surrounding whitespace, unless nothing is left of it. *)
Definition trimmed_lines (lines : list string) : list string :=
  filter Py.truthy (map Py.strip lines).

Fixpoint blank (s : string) : bool :=
  match s with
  | EmptyString => true
  | String c r => Py.isspace c && blank r
  end.

(** The lines of a text once its trailing whitespace is gone: trailing
    blank lines disappear and the last line that remains loses its
    trailing whitespace. *)
Fixpoint drop_blank_tail (lines : list string) : list string :=
  match lines with
  | [] => []
  | l :: rest =>
      match drop_blank_tail rest with
      | [] => if blank l then [] else [Py.rstrip l]
      | rest' => l :: rest'
      end
  end.

(** *** Scores of a session *)

Fixpoint all_digits (s : string) : bool :=
  match s with
  | EmptyString => true
  | String c r => Py.isdigit c && all_digits r
  end.

(** The integer of the first [Score: <integer>/10] of a record's
    feedback, if the feedback has one. *)
Definition first_score (record : AnswerRecord) : option Z :=
  option_map Py.decimal (Py.search_score (feedback record)).

(** The digits of the first score of a record are few enough for [int]
    (true as well when the feedback has no score). *)
Definition within_digit_limit (record : AnswerRecord) : bool :=
  match Py.search_score (feedback record) with
  | Some digits => Z.of_nat (String.length digits) <=? Py.int_max_str_digits
  | None => true
  end.

Definition scores_within_limit (records : list AnswerRecord) : bool :=
  forallb within_digit_limit records.

(** The scores of the records that have one, in order. *)
Definition parsed_scores (records : list AnswerRecord) : list Z :=
  flat_map (fun record => match first_score record with
                          | Some n => [n]
                          | None => []
                          end) records.

Definition sum_of (l : list Z) : Z := fold_right Z.add 0 l.

(** The report prompt around a given text for the average. *)
Definition report_text (job_role interview_type : string)
    (records : list AnswerRecord) (average : string) : string :=
  Py.join Py.nl
    ((report_header job_role interview_type :: map interaction records)
     ++ [average_line average] ++ report_sections)%list.




(** *** A sample session

    Backend Engineer, technical, three questions; the first two answered,
    the third skipped; then the report. *)

Definition three_questions : string :=
  "What is a mutex?" ++ Py.nl ++ "Explain the CAP theorem." ++ Py.nl
  ++ "What does an index cost?".

Definition feedback_seven : string :=
  "Feedback: ok" ++ Py.nl ++ "Score: 7/10" ++ Py.nl
  ++ "Improvement Suggestion: none".

Definition feedback_six : string :=
  "Feedback: thin" ++ Py.nl ++ "Score: 6/10" ++ Py.nl
  ++ "Improvement Suggestion: give an example".

(** A click with the setup widgets at their defaults. *)
Definition click (b : button) (answer : string) (response : reply) : run :=
  mkRun (Some b) "Software Engineer" "Backend" BehavioralInterview
        (mkSlider 5 eq_refl) answer response UnknownValueError.

Definition backend_start : run :=
  mkRun (Some StartInterview) "Backend Engineer" "" TechnicalInterview
        (mkSlider 3 eq_refl) "" (Text three_questions) UnknownValueError.

Definition blocked_start : run := click StartInterview "" Blocked.

Definition first_question : session_state := after backend_start empty.
Definition second_question : session_state :=
  after (click SubmitAnswer "A lock held by one thread." (Text feedback_seven))
        first_question.
Definition third_question : session_state :=
  after (click SubmitAnswer "Pick two of three." (Text feedback_seven))
        second_question.
Definition summary : session_state :=
  after (click SkipQuestion "" Blocked) third_question.
Definition reported : session_state :=
  after (click GenerateFinalReport "" (Text "Solid basics.")) summary.

(** A feedback whose score is the integer [n]. *)
Definition feedback_scored (n : Z) : string := "Score: " ++ Py.str n ++ "/10".

(** Three records scored 7, 7 and 6. *)
Definition three_scores : list AnswerRecord :=
  [ mkRecord "Q1" "A1" feedback_seven;
    mkRecord "Q2" "A2" feedback_seven;
    mkRecord "Q3" "A3" feedback_six ].

(** One record for each of the given scores. *)
Definition scored (scores : list Z) : list AnswerRecord :=
  map (fun n => mkRecord "Q" "A" (feedback_scored n)) scores.

(** A response whose lines carry whitespace. *)
Definition padded_reply : string :=
  " Q1" ++ Py.nl ++ " " ++ Py.nl ++ "Q2".

(* ================================================================= *)
(** ** The page as a machine, and [main] *)

(** The number of calls to the model in a trace. *)
Fixpoint model_calls (t : list event) : nat :=
  match t with
  | [] => O
  | GenerateContent _ :: rest => S (model_calls rest)
  | _ :: rest => model_calls rest
  end.

Definition or_empty (field : option string) : string :=
  match field with
  | Some v => v
  | None => ""
  end.

(** The question on the page while the interview is in progress. *)
Definition current_question (s : session_state) : option string :=
  match questions s, current_question_idx s with
  | Some asked, Some idx => Py.index asked idx
  | _, _ => None
  end.

(** The evaluation call that a submit makes for the question [q]. *)
Definition evaluation (u : run) (s : session_state) (q : string)
  : string * list event :=
  evaluate_llm_answer_gemini (or_empty (job_role s))
    (or_empty (interview_type s)) q (input_answer u) (or_empty (domain s))
    (model u).

(** The report call that a click on the report button makes. *)
Definition report (u : run) (s : session_state)
  : (string + exn) * list event :=
  generate_final_report_gemini (or_empty (job_role s))
    (or_empty (interview_type s))
    (match all_responses s with Some rs => rs | None => [] end) (model u).

(** What one run does, phase by phase and click by click: how it ends, the
    store it leaves and its trace. *)
Definition machine (u : run) (s : session_state)
  : (unit + stop) * session_state * list event :=
  match phase_of s with
  | Setup =>
      match clicked u with
      | Some StartInterview =>
          if generation_succeeded (fst (generation u))
          then (inr RerunException,
                set_interview_started true
                  (set_questions (fst (generation u)) (configured u s)),
                snd (generation u))
          else (inl tt, set_questions (fst (generation u)) (configured u s),
                (snd (generation u) ++ [Notice Error start_failed_notice])%list)
      | _ => (inl tt, configured u s, [])
      end
  | InProgress =>
      match clicked u, current_question s with
      | Some AnswerWithVoice, _ =>
          (inr RerunException,
           set_current_user_answer (fst (recognize_speech_live (microphone u))) s,
           snd (recognize_speech_live (microphone u)))
      | Some SubmitAnswer, Some q =>
          if Py.truthy (input_answer u)
          then (inr RerunException,
                advanced (mkRecord q (input_answer u) (fst (evaluation u s q))) s,
                snd (evaluation u s q))
          else (inl tt, s, [Notice Warning empty_answer_warning])
      | Some SkipQuestion, Some q =>
          (inr RerunException,
           advanced (mkRecord q "Skipped" "No feedback.") s, [])
      | _, _ => (inl tt, s, [])
      end
  | Summary =>
      match clicked u with
      | Some GenerateFinalReport =>
          match fst (report u s) with
          | inl text =>
              (inr RerunException, set_final_report (Some text) s,
               Notice Success interview_completed :: snd (report u s))
          | inr e =>
              (inr (Uncaught e), s,
               Notice Success interview_completed :: snd (report u s))
          end
      | Some StartNewInterview =>
          (inr RerunException, empty, [Notice Success interview_completed])
      | _ => (inl tt, s, [Notice Success interview_completed])
      end
  | Reported =>
      match clicked u with
      | Some StartNewInterview =>
          (inr RerunException, empty, [Notice Success interview_completed])
      | _ => (inl tt, s, [Notice Success interview_completed])
      end
  end.

(** The steps between phases that a run may take, with the click that
    takes them. *)
Definition phase_step (u : run) (p p' : phase) : Prop :=
  p' = p \/
  (p = Setup /\ p' = InProgress /\ clicked u = Some StartInterview) \/
  (p = InProgress /\ p' = Summary /\ is_advance u = true) \/
  (p = Summary /\ p' = Reported /\ clicked u = Some GenerateFinalReport) \/
  ((p = Summary \/ p = Reported) /\ p' = Setup
   /\ clicked u = Some StartNewInterview).

(** A session of one question whose answer is scored with 400 digits. *)
Definition one_question_start : run :=
  mkRun (Some StartInterview) "Backend Engineer" "" TechnicalInterview
        (mkSlider 3 eq_refl) "" (Text "What is a mutex?") UnknownValueError.

Definition huge_score_summary : session_state :=
  after (click SubmitAnswer "A lock." (Text (feedback_scored (10 ^ 400))))
        (after one_question_start empty).

(** The same session with a score of 4301 digits. *)
Definition long_score_summary : session_state :=
  after (click SubmitAnswer "A lock." (Text (feedback_scored (10 ^ 4300))))
        (after one_question_start empty).

(** A question as the page shows it: not empty, and without whitespace
    around it. *)
Definition clean (q : string) : Prop := q <> "" /\ Py.strip q = q.

(** The marker by which the page recognises a failed generation. *)
Definition failure_marker : string := "Could not generate".

(** The feedback that a submit records, by what the model did. *)
Definition recorded_feedback (response : reply) : string :=
  match response with
  | Text text => Py.strip text
  | Blocked =>
      "Evaluation was blocked. The answer might contain sensitive content."
  | Raises _ => "Could not evaluate answer due to an error."
  end.


(** The average that the report prompt prints for a list of records, or
    the exception that [int] or the division raises. *)
Definition printed_average (records : list AnswerRecord) : string + exn :=
  if scores_within_limit records
  then match avg_score (sum_of (parsed_scores records))
                       (Py.len (parsed_scores records)) with
       | Some average => inl (Float.format_1f average)
       | None => inr OverflowError
       end
  else inr ValueError.

(** What a text must read for the score pattern to match at its start:
    [Score: ], one or more digits, [/10], and then anything. *)
Definition reads_score (s digits : string) : Prop :=
  digits <> "" /\ all_digits digits = true /\
  exists rest, s = "Score: " ++ digits ++ "/10" ++ rest.

(** [p] occurs in [s]. *)
Definition occurs (p s : string) : Prop := exists a b, s = a ++ p ++ b.

(** *** [main] *)

Definition missing_key_error : string :=
  "🚨 GOOGLE_API_KEY not found. Please create a .env file and add your key.".

Definition missing_key_hint : string :=
  "The .env file should be in the same directory as main.py and contain: GOOGLE_API_KEY='Your-Key-Here'".

(** [main()], given what [os.getenv("GOOGLE_API_KEY")] returns: [None]
    when the variable is not set.  ([st.set_page_config] only styles the
    page.) *)
Definition main (api_key : option string) (u : run) : M unit :=
  if match api_key with Some key => Py.truthy key | None => false end
  then interview_page u
  else notice Error missing_key_error ;; notice Info missing_key_hint.

(** The stores that runs of [main] reach, whatever the environment holds
    at each run. *)
Inductive reachable_by_main : session_state -> Prop :=
| main_new : reachable_by_main empty
| main_run (s : session_state) (api_key : option string) (u : run) :
    reachable_by_main s ->
    reachable_by_main (snd (fst (main api_key u s))).

Open Scope list_scope.

(* ================================================================= *)
(** ** Lists and indices *)

Section Lists.

Context {A : Type}.

Lemma len_nonneg (l : list A) : 0 <= Py.len l.
Proof. unfold Py.len. lia. Qed.

Lemma len_cons (x : A) (l : list A) : Py.len (x :: l) = 1 + Py.len l.
Proof. unfold Py.len. cbn [List.length]. lia. Qed.

Lemma len_app (l : list A) (x : A) : Py.len (l ++ [x]) = Py.len l + 1.
Proof. unfold Py.len. rewrite length_app. cbn. lia. Qed.

Lemma index_in_range (l : list A) (i : Z) :
  0 <= i < Py.len l -> exists x, Py.index l i = Some x.
Proof.
  intros H. unfold Py.index, Py.len in *.
  destruct (0 <=? i) eqn:E; [|apply Z.leb_gt in E; lia].
  destruct (nth_error l (Z.to_nat i)) eqn:N; eauto.
  apply nth_error_None in N. lia.
Qed.

Lemma index_last (l : list A) (x : A) :
  Py.index (l ++ [x]) (Py.len l) = Some x.
Proof.
  unfold Py.index, Py.len.
  destruct (0 <=? Z.of_nat (List.length l)) eqn:E;
    [|apply Z.leb_gt in E; lia].
  rewrite Nat2Z.id, nth_error_app2, Nat.sub_diag; [reflexivity|lia].
Qed.

Lemma slice_to_len (l : list A) (n : Z) :
  0 <= n -> Py.len (Py.slice_to l n) <= n.
Proof.
  intros H. unfold Py.slice_to, Py.len.
  destruct (0 <=? n) eqn:E; [|apply Z.leb_gt in E; lia].
  rewrite length_firstn. lia.
Qed.

Lemma replicate_len (x : A) (n : Z) :
  0 <= n -> Py.len (Py.replicate x n) = n.
Proof. intros H. unfold Py.replicate, Py.len. rewrite repeat_length. lia. Qed.

End Lists.

Lemma slider_bounds (v : slider) : 3 <= slider_int v <= 10.
Proof. destruct v as [n H]. cbn. apply andb_true_iff in H. lia. Qed.

(* ================================================================= *)
(** ** Stripping and splitting *)

Section Strip.

Lemma rstrip_blank s : blank s = true -> Py.rstrip s = "".
Proof.
  induction s as [|c r IH]; cbn; [reflexivity|].
  intros H. apply andb_true_iff in H as [Hc Hr].
  now rewrite (IH Hr), Hc.
Qed.

Lemma rstrip_not_blank s : blank s = false -> Py.rstrip s <> "".
Proof.
  induction s as [|c r IH]; cbn; [discriminate|].
  intros H. destruct (Py.rstrip r) eqn:E.
  - destruct (Py.isspace c); [|discriminate].
    cbn in H. now apply IH in H.
  - discriminate.
Qed.

Lemma lstrip_blank s : blank s = true -> Py.lstrip s = "".
Proof.
  induction s as [|c r IH]; cbn; [reflexivity|].
  intros H. apply andb_true_iff in H as [Hc Hr]. now rewrite Hc, IH.
Qed.

Lemma lstrip_not_blank s :
  blank s = false ->
  exists c r, Py.lstrip s = String c r /\ Py.isspace c = false.
Proof.
  induction s as [|c r IH]; cbn; [discriminate|].
  destruct (Py.isspace c) eqn:Hc; cbn; eauto.
Qed.

Lemma rstrip_head c r :
  Py.isspace c = false -> exists r', Py.rstrip (String c r) = String c r'.
Proof.
  intros Hc. cbn. rewrite Hc. destruct (Py.rstrip r); eauto.
Qed.

Lemma strip_blank s : blank s = true -> Py.strip s = "".
Proof. intros H. unfold Py.strip. now rewrite lstrip_blank. Qed.

Lemma strip_not_blank s : blank s = false -> Py.strip s <> "".
Proof.
  intros H. unfold Py.strip.
  destruct (lstrip_not_blank s H) as (c & r & -> & Hc).
  destruct (rstrip_head c r Hc) as [r' ->]. discriminate.
Qed.

Lemma rstrip_idem s : Py.rstrip (Py.rstrip s) = Py.rstrip s.
Proof.
  induction s as [|c r IH]; cbn; [reflexivity|].
  destruct (Py.rstrip r) as [|c' r'] eqn:E.
  - destruct (Py.isspace c) eqn:Hc; cbn; [reflexivity|now rewrite Hc].
  - cbn [Py.rstrip] in *. now rewrite IH.
Qed.

Lemma lstrip_rstrip s : Py.lstrip (Py.rstrip s) = Py.rstrip (Py.lstrip s).
Proof.
  induction s as [|c r IH]; cbn; [reflexivity|].
  destruct (Py.isspace c) eqn:Hc.
  - destruct (Py.rstrip r) as [|c' r'] eqn:E.
    + cbn. destruct (blank r) eqn:B.
      * now rewrite lstrip_blank.
      * now apply rstrip_not_blank in B.
    + cbn [Py.lstrip]. now rewrite Hc.
  - cbn [Py.rstrip]. destruct (Py.rstrip r); cbn; now rewrite Hc.
Qed.

Lemma strip_rstrip s : Py.strip (Py.rstrip s) = Py.strip s.
Proof.
  unfold Py.strip. now rewrite lstrip_rstrip, rstrip_idem.
Qed.

Lemma strip_space c s :
  Py.isspace c = true -> Py.strip (String c s) = Py.strip s.
Proof. intros H. unfold Py.strip. cbn. now rewrite H. Qed.

End Strip.

Section Lines.

Lemma split_lines_cons s : exists l ls, Py.split_lines s = l :: ls.
Proof.
  destruct s as [|c r]; cbn [Py.split_lines]; [eauto|].
  destruct (Ascii.eqb c Py.newline); [eauto|].
  destruct (Py.split_lines r); eauto.
Qed.

Lemma split_lines_single_empty s : Py.split_lines s = [""] -> s = "".
Proof.
  destruct s as [|c r]; cbn [Py.split_lines]; [reflexivity|].
  destruct (Ascii.eqb c Py.newline).
  - destruct (split_lines_cons r) as (l & ls & ->). discriminate.
  - destruct (Py.split_lines r); discriminate.
Qed.

Lemma split_lines_newline r :
  Py.split_lines (String Py.newline r) = "" :: Py.split_lines r.
Proof. reflexivity. Qed.

Lemma split_lines_other c r :
  Ascii.eqb c Py.newline = false ->
  Py.split_lines (String c r) =
  match Py.split_lines r with
  | [] => [String c ""]
  | l :: ls => String c l :: ls
  end.
Proof. intros N. cbn [Py.split_lines]. now rewrite N. Qed.

Lemma newline_isspace : Py.isspace Py.newline = true.
Proof. reflexivity. Qed.

Lemma drop_blank_tail_single ls x : drop_blank_tail ls = [x] -> x <> "".
Proof.
  destruct ls as [|l rest]; cbn; [discriminate|].
  destruct (drop_blank_tail rest) eqn:E.
  - destruct (blank l) eqn:B; [discriminate|].
    intros [= <-]. now apply rstrip_not_blank.
  - discriminate.
Qed.

Lemma split_lines_rstrip s :
  Py.split_lines (Py.rstrip s) =
  match drop_blank_tail (Py.split_lines s) with
  | [] => [""]
  | kept => kept
  end.
Proof.
  induction s as [|c r IH]; [reflexivity|].
  cbn [Py.split_lines Py.rstrip].
  destruct (Ascii.eqb c Py.newline) eqn:N.
  - apply Ascii.eqb_eq in N. subst c. rewrite newline_isspace.
    cbn [drop_blank_tail blank].
    destruct (drop_blank_tail (Py.split_lines r)) as [|k ks] eqn:D.
    + apply split_lines_single_empty in IH. now rewrite IH.
    + destruct (Py.rstrip r) eqn:E.
      * cbn in IH. injection IH as <- <-.
        now apply drop_blank_tail_single in D.
      * now rewrite split_lines_newline, IH.
  - destruct (split_lines_cons r) as (l & ls & S). rewrite S in *.
    cbn [drop_blank_tail] in *.
    destruct (drop_blank_tail ls) as [|k ks] eqn:D.
    + destruct (blank l) eqn:B.
      * apply split_lines_single_empty in IH. rewrite IH.
        cbn [blank]. rewrite B.
        destruct (Py.isspace c) eqn:Hc; cbn [andb]; [reflexivity|].
        rewrite (split_lines_other c _ N). cbn [Py.split_lines Py.rstrip].
        now rewrite (rstrip_blank l B), Hc.
      * cbn [blank]. rewrite B, andb_false_r.
        pose proof (rstrip_not_blank l B) as NE.
        destruct (Py.rstrip r) eqn:E.
        -- cbn in IH. injection IH as IH. congruence.
        -- rewrite (split_lines_other c _ N), IH.
           cbn [Py.rstrip]. destruct (Py.rstrip l); [congruence|reflexivity].
    + destruct (Py.rstrip r) eqn:E.
      * cbn in IH. discriminate.
      * now rewrite (split_lines_other c _ N), IH.
Qed.

Lemma trimmed_drop_blank_tail ls :
  trimmed_lines (drop_blank_tail ls) = trimmed_lines ls.
Proof.
  induction ls as [|l rest IH]; [reflexivity|].
  cbn [drop_blank_tail].
  destruct (drop_blank_tail rest) as [|k ks] eqn:D.
  - unfold trimmed_lines in *. cbn [map filter] in *. rewrite <- IH.
    destruct (blank l) eqn:B.
    + now rewrite (strip_blank l B).
    + cbn [map filter]. now rewrite strip_rstrip.
  - unfold trimmed_lines in *. cbn [map filter] in *. now rewrite IH.
Qed.

Lemma trimmed_rstrip s :
  trimmed_lines (Py.split_lines (Py.rstrip s))
  = trimmed_lines (Py.split_lines s).
Proof.
  rewrite split_lines_rstrip, <- (trimmed_drop_blank_tail (Py.split_lines s)).
  now destruct (drop_blank_tail (Py.split_lines s)).
Qed.

Lemma trimmed_lstrip s :
  trimmed_lines (Py.split_lines (Py.lstrip s))
  = trimmed_lines (Py.split_lines s).
Proof.
  induction s as [|c r IH]; [reflexivity|].
  cbn [Py.lstrip]. destruct (Py.isspace c) eqn:Hc; [|reflexivity].
  rewrite IH. cbn [Py.split_lines].
  destruct (Ascii.eqb c Py.newline); [reflexivity|].
  destruct (split_lines_cons r) as (l & ls & ->).
  unfold trimmed_lines. cbn [map filter]. now rewrite strip_space.
Qed.

Lemma question_lines_trimmed text :
  question_lines (Py.strip text) = trimmed_lines (Py.split_lines text).
Proof.
  unfold Py.strip. rewrite <- trimmed_lstrip, <- trimmed_rstrip.
  unfold question_lines, trimmed_lines.
  induction (Py.split_lines (Py.rstrip (Py.lstrip text))) as [|l ls IH];
    [reflexivity|].
  cbn [map filter]. destruct (Py.truthy (Py.strip l)); cbn [map]; now rewrite IH.
Qed.

End Lines.

(* ================================================================= *)
(** ** The score pattern *)

Section Regex.

Lemma strip_prefix_spec p s rest :
  Py.strip_prefix p s = Some rest <-> s = (p ++ rest)%string.
Proof.
  revert s. induction p as [|a p IH]; intros s; cbn.
  - split; [now intros [= ->]|now intros ->].
  - destruct s as [|b s]; [split; discriminate|].
    destruct (Ascii.eqb_spec a b) as [->|N].
    + rewrite IH. split; [now intros ->|now intros [= ->]].
    + split; [discriminate|intros [= E _]; congruence].
Qed.

Lemma span_digits_spec s :
  let '(d, rest) := Py.span_digits s in
  s = (d ++ rest)%string /\ all_digits d = true /\
  match rest with
  | EmptyString => True
  | String c _ => Py.isdigit c = false
  end.
Proof.
  induction s as [|c r IH]; cbn; [auto|].
  destruct (Py.isdigit c) eqn:Hc.
  - destruct (Py.span_digits r) as [d rest]. cbn. rewrite Hc.
    destruct IH as (-> & D & R). auto.
  - cbn. auto.
Qed.

Lemma span_digits_run d rest :
  all_digits d = true ->
  match rest with
  | EmptyString => True
  | String c _ => Py.isdigit c = false
  end ->
  Py.span_digits (d ++ rest)%string = (d, rest).
Proof.
  intros D R. induction d as [|c d IH]; cbn.
  - destruct rest as [|c r]; [reflexivity|]. cbn. now rewrite R.
  - cbn in D. apply andb_true_iff in D as [Hc D]. rewrite Hc, IH; auto.
Qed.

(** [match_score_at] against the meaning of the pattern: the text reads
    [Score: ], one or more digits, [/10]. *)
Lemma match_score_at_spec s d :
  Py.match_score_at s = Some d <->
  d <> "" /\ all_digits d = true /\
  exists rest, s = ("Score: " ++ d ++ "/10" ++ rest)%string.
Proof.
  unfold Py.match_score_at. split.
  - destruct (Py.strip_prefix "Score: " s) as [r|] eqn:P; [|discriminate].
    apply strip_prefix_spec in P.
    pose proof (span_digits_spec r) as S.
    destruct (Py.span_digits r) as [d' rest]. destruct S as (-> & D & _).
    destruct d' as [|c d']; [discriminate|].
    destruct (Py.strip_prefix "/10" rest) as [rest'|] eqn:Q; [|discriminate].
    apply strip_prefix_spec in Q. intros [= <-].
    repeat split; [discriminate|exact D|]. exists rest'. now rewrite P, Q.
  - intros (N & D & rest & ->).
    change (Py.strip_prefix "Score: " ("Score: " ++ d ++ "/10" ++ rest)%string)
      with (Some (d ++ "/10" ++ rest)%string).
    cbv beta iota.
    rewrite (span_digits_run d ("/10" ++ rest)%string D eq_refl).
    destruct d; [congruence|]. reflexivity.
Qed.

(** [search_score] returns the capture of the leftmost match. *)
Lemma search_score_leftmost s d :
  Py.search_score s = Some d <->
  exists before from,
    s = (before ++ from)%string /\ Py.match_score_at from = Some d /\
    forall before' from',
      s = (before' ++ from')%string ->
      (String.length before' < String.length before)%nat ->
      Py.match_score_at from' = None.
Proof.
  induction s as [|c s IH].
  - cbn. split; [discriminate|].
    intros (before & from & E & M & _).
    destruct before; [|discriminate]. cbn in E. subst from. discriminate.
  - cbn [Py.search_score].
    destruct (Py.match_score_at (String c s)) as [d0|] eqn:M0.
    + split.
      * intros [= ->]. exists "", (String c s). repeat split; trivial.
        intros ? ? _ L. cbn in L. lia.
      * intros (before & from & E & M & Least).
        destruct before as [|b before].
        -- cbn in E. subst from. congruence.
        -- rewrite (Least "" (String c s)) in M0; [discriminate|reflexivity|].
           cbn. lia.
    + rewrite IH. split.
      * intros (before & from & E & M & Least).
        exists (String c before), from. repeat split; [now rewrite E|exact M|].
        intros before' from' E' L.
        destruct before' as [|b before'].
        -- cbn in E'. now subst from'.
        -- cbn in E'. injection E' as -> E'. apply (Least before' from' E').
           cbn in L. lia.
      * intros (before & from & E & M & Least).
        destruct before as [|b before].
        -- cbn in E. subst from. congruence.
        -- cbn in E. injection E as -> E.
           exists before, from. repeat split; trivial.
           intros before' from' E' L.
           apply (Least (String b before') from'); [now rewrite E'|].
           cbn. lia.
Qed.



End Regex.

Section ScoreLoop.

Lemma parsed_scores_cons r records :
  parsed_scores (r :: records)
  = match Py.search_score (feedback r) with
    | Some d => Py.decimal d :: parsed_scores records
    | None => parsed_scores records
    end.
Proof.
  unfold parsed_scores at 1. cbn [flat_map]. unfold first_score.
  now destruct (Py.search_score (feedback r)).
Qed.

Lemma scores_within_limit_cons r records :
  scores_within_limit (r :: records)
  = within_digit_limit r && scores_within_limit records.
Proof. reflexivity. Qed.

Lemma scores_within_limit_app l1 l2 :
  scores_within_limit (l1 ++ l2)
  = scores_within_limit l1 && scores_within_limit l2.
Proof. apply forallb_app. Qed.

Lemma within_digit_limit_unscored r :
  first_score r = None -> within_digit_limit r = true.
Proof.
  unfold first_score, within_digit_limit.
  now destruct (Py.search_score (feedback r)).
Qed.

(** The loop raises [ValueError] exactly when some record's first score
    has too many digits for [int]; otherwise it adds up the scores, counts
    them and appends one part per record. *)
Lemma score_loop_spec records : forall total count parts,
  score_loop records total count parts
  = if scores_within_limit records
    then inl (total + sum_of (parsed_scores records),
              count + Py.len (parsed_scores records),
              parts ++ map interaction records)
    else inr ValueError.
Proof.
  induction records as [|r records IH]; intros total count parts.
  - cbn. unfold Py.len. cbn. now rewrite !Z.add_0_r, app_nil_r.
  - cbn [score_loop map]. rewrite parsed_scores_cons, scores_within_limit_cons.
    unfold within_digit_limit, Py.int.
    destruct (Py.search_score (feedback r)) as [d|].
    + destruct (Z.of_nat (String.length d) <=? Py.int_max_str_digits);
        cbn [andb]; [|reflexivity].
      rewrite IH. destruct (scores_within_limit records); [|reflexivity].
      rewrite len_cons, <- app_assoc. cbn [app sum_of fold_right].
      fold (sum_of (parsed_scores records)). now rewrite !Z.add_assoc.
    + cbn [andb]. rewrite IH.
      destruct (scores_within_limit records); [|reflexivity].
      now rewrite <- app_assoc.
Qed.


End ScoreLoop.

(* ================================================================= *)
(** ** Rounding of the average *)

Section Rounding.











End Rounding.

(* ================================================================= *)
(** ** The invariant of the session *)

(** Unfolding one run of the page on a given store. *)
Ltac run_page :=
  unfold after, trace_of, ending, interview_page, initialize, setup_screen,
    interview_screen, summary_screen, append_response, bind, attr, assign,
    when, ret, emit, notice, rerun, raise, st_button; cbn.

Section Invariant.

Lemma generate_len role ty n dom r :
  0 <= n -> Py.len (fst (generate_llm_questions_gemini role ty n dom r)) <= n.
Proof.
  intros H. destruct r; cbn.
  - rewrite replicate_len; lia.
  - rewrite replicate_len; lia.
  - apply slice_to_len; lia.
Qed.

Lemma generation_succeeded_nonempty qs :
  generation_succeeded qs = true -> qs <> [].
Proof. destruct qs; cbn; congruence. Qed.

Lemma step_consistent u s : consistent s -> consistent (after u s).
Proof.
  intros C. pose proof (slider_bounds (input_num_questions u)) as Hu.
  destruct C as [|started rs qs cur fr jr d ty n H1 H2 H3 H4 H6].
  - run_page. destruct (clicked u) as [[]|]; cbn.
    2-7: (apply (consistent_live false [] []); cbn; try lia; try tauto; try congruence).
    pose proof (generate_len (input_job_role u) (mode_label (input_mode u)) (slider_int (input_num_questions u)) (input_domain u) (model u)) as GL.
    destruct (generate_llm_questions_gemini _ _ _ _ _) as [generated trace]. cbn in *.
    destruct (generation_succeeded generated) eqn:G; cbn.
    + apply (consistent_live true [] generated); cbn; try lia; try tauto; try congruence.
      * apply len_nonneg.
      * intros _. split; [now apply generation_succeeded_nonempty|lia].
    + apply (consistent_live false [] generated); cbn; try lia; try tauto; try congruence.
      apply len_nonneg.
  - destruct started.
    + run_page. destruct (Py.len rs <? Py.len qs) eqn:L.
      * apply Z.ltb_lt in L.
        destruct (index_in_range qs (Py.len rs)) as [q Hq]; [pose proof (len_nonneg rs); lia|].
        cbn. rewrite Hq. cbn.
        assert (FR : fr = None).
        { destruct fr; [|reflexivity]. assert (Py.len rs = Py.len qs) by (apply H3; congruence). lia. }
        subst fr.
        destruct (clicked u) as [[]|]; cbn.
        all: try (apply (consistent_live true rs qs); cbn; try lia; try tauto; try congruence).
        -- destruct (recognize_speech_live (microphone u)) as [text trace]; cbn.
           apply (consistent_live true rs qs); cbn; try lia; try tauto; try congruence.
        -- destruct (Py.truthy (input_answer u)); cbn.
           ++ destruct (evaluate_llm_answer_gemini _ _ _ _ _ _) as [fb trace]; cbn.
              rewrite <- len_app with (x := mkRecord q (input_answer u) fb).
              apply (consistent_live true _ qs); cbn; try rewrite len_app; try lia; try tauto; try congruence.
           ++ apply (consistent_live true rs qs); cbn; try lia; try tauto; try congruence.
        -- rewrite <- len_app with (x := mkRecord q "Skipped" "No feedback.").
           apply (consistent_live true _ qs); cbn; try rewrite len_app; try lia; try tauto; try congruence.
      * apply Z.ltb_ge in L. cbn.
        destruct fr as [r|]; cbn.
        -- destruct (clicked u) as [[]|]; cbn.
           all: try (apply (consistent_live true rs qs); cbn; try lia; try tauto; try congruence).
           constructor.
        -- destruct (clicked u) as [[]|]; cbn.
           all: try (apply (consistent_live true rs qs); cbn; try lia; try tauto; try congruence).
           ++ destruct (generate_final_report_gemini _ _ _ _) as [[text|e] trace]; cbn.
              ** apply (consistent_live true rs qs); cbn; try lia; try tauto; try congruence.
              ** apply (consistent_live true rs qs); cbn; try lia; try tauto; try congruence.
           ++ constructor.
    + destruct H2 as [-> ->]; [reflexivity|].
      run_page. destruct (clicked u) as [[]|]; cbn.
      2-7: (apply (consistent_live false [] qs); cbn; try lia; try tauto; try congruence).
      pose proof (generate_len (input_job_role u) (mode_label (input_mode u)) (slider_int (input_num_questions u)) (input_domain u) (model u)) as GL.
      destruct (generate_llm_questions_gemini _ _ _ _ _) as [generated trace]. cbn in *.
      destruct (generation_succeeded generated) eqn:G; cbn.
      * apply (consistent_live true [] generated); cbn; try lia; try tauto; try congruence.
        -- apply len_nonneg.
        -- intros _. split; [now apply generation_succeeded_nonempty|lia].
      * apply (consistent_live false [] generated); cbn; try lia; try tauto; try congruence.
        apply len_nonneg.
Qed.

Lemma reachable_consistent s : reachable s -> consistent s.
Proof.
  induction 1 as [|s u _ IH]; [constructor|now apply step_consistent].
Qed.

(** The shape of a consistent store in each phase. *)
Lemma in_progress_shape s :
  consistent s -> phase_of s = InProgress ->
  exists rs qs cur jr d ty n q,
    s = mkState (Some true) (Some rs) (Some (Py.len rs)) (Some qs) (Some cur)
          (Some None) (Some jr) (Some d) (Some ty) (Some n)
    /\ Py.len rs < Py.len qs /\ Py.index qs (Py.len rs) = Some q.
Proof.
  intros C P. destruct C as [|started rs qs cur fr jr d ty n H1 H2 H3 H4 H6];
    [discriminate|].
  unfold phase_of in P; cbn in P. destruct started; [|discriminate].
  destruct (Py.len rs <? Py.len qs) eqn:L.
  - apply Z.ltb_lt in L.
    destruct (index_in_range qs (Py.len rs)) as [q Hq];
      [pose proof (len_nonneg rs); lia|].
    destruct fr as [r|].
    + assert (Py.len rs = Py.len qs) by (apply H3; congruence). lia.
    + now exists rs, qs, cur, jr, d, ty, n, q.
  - destruct fr; discriminate.
Qed.

Lemma finished_shape s :
  consistent s -> phase_of s = Summary \/ phase_of s = Reported ->
  exists rs qs cur fr jr d ty n,
    s = mkState (Some true) (Some rs) (Some (Py.len rs)) (Some qs) (Some cur)
          (Some fr) (Some jr) (Some d) (Some ty) (Some n)
    /\ Py.len rs = Py.len qs
    /\ (phase_of s = Summary -> fr = None)
    /\ (phase_of s = Reported -> fr <> None).
Proof.
  intros C P. destruct C as [|started rs qs cur fr jr d ty n H1 H2 H3 H4 H6];
    [destruct P; discriminate|].
  unfold phase_of in *; cbn in *. destruct started; [|destruct P; discriminate].
  destruct (Py.len rs <? Py.len qs) eqn:L; [destruct P; discriminate|].
  apply Z.ltb_ge in L.
  exists rs, qs, cur, fr, jr, d, ty, n. repeat split; try lia.
  - destruct fr; [discriminate|reflexivity].
  - destruct fr; [discriminate|discriminate].
Qed.

Lemma setup_shape s :
  consistent s -> phase_of s = Setup ->
  s = empty \/
  exists qs cur jr d ty n,
    s = mkState (Some false) (Some []) (Some 0) (Some qs) (Some cur)
          (Some None) (Some jr) (Some d) (Some ty) (Some n).
Proof.
  intros C P. destruct C as [|started rs qs cur fr jr d ty n H1 H2 H3 H4 H6];
    [now left|right].
  unfold phase_of in P; cbn in P. destruct started.
  - destruct (Py.len rs <? Py.len qs); [discriminate|destruct fr; discriminate].
  - destruct H2 as [-> ->]; [reflexivity|]. now exists qs, cur, jr, d, ty, n.
Qed.

End Invariant.

(* ================================================================= *)
(** ** The runs of each screen *)

Section Screens.

Lemma skip_run s u :
  consistent s -> phase_of s = InProgress -> clicked u = Some SkipQuestion ->
  exists rs qs q,
    all_responses s = Some rs /\ questions s = Some qs /\
    current_question_idx s = Some (Py.len rs) /\
    Py.len rs < Py.len qs /\
    Py.index qs (Py.len rs) = Some q /\
    interview_page u s =
      (inr RerunException, advanced (mkRecord q "Skipped" "No feedback.") s, []).
Proof.
  intros C P Hc.
  destruct (in_progress_shape s C P)
    as (rs & qs & cur & jr & d & ty & n & q & -> & L & Hq).
  exists rs, qs, q. repeat split; trivial.
  apply Z.ltb_lt in L.
  run_page. rewrite L; cbn. rewrite Hq, Hc. reflexivity.
Qed.

Lemma submit_run s u :
  consistent s -> phase_of s = InProgress -> clicked u = Some SubmitAnswer ->
  Py.truthy (input_answer u) = true ->
  exists rs qs q role ty dom,
    all_responses s = Some rs /\ questions s = Some qs /\
    current_question_idx s = Some (Py.len rs) /\
    Py.len rs < Py.len qs /\
    Py.index qs (Py.len rs) = Some q /\
    job_role s = Some role /\ interview_type s = Some ty /\
    domain s = Some dom /\
    let call := evaluate_llm_answer_gemini role ty q (input_answer u) dom
                  (model u) in
    interview_page u s =
      (inr RerunException,
       advanced (mkRecord q (input_answer u) (fst call)) s, snd call).
Proof.
  intros C P Hc Ha.
  destruct (in_progress_shape s C P)
    as (rs & qs & cur & jr & d & ty & n & q & -> & L & Hq).
  exists rs, qs, q, jr, ty, d. repeat split; trivial.
  apply Z.ltb_lt in L.
  run_page. rewrite L; cbn. rewrite Hq, Hc, Ha. cbn.
  destruct (evaluate_llm_answer_gemini jr ty q (input_answer u) d (model u))
    as [fb trace]. cbn. now rewrite app_nil_r.
Qed.

Lemma advance_run s u :
  consistent s -> phase_of s = InProgress -> is_advance u = true ->
  exists rs qs record,
    all_responses s = Some rs /\ questions s = Some qs /\
    current_question_idx s = Some (Py.len rs) /\
    Py.len rs < Py.len qs /\
    after u s = advanced record s /\
    ending u s = inr RerunException.
Proof.
  intros C P A. unfold is_advance in A.
  destruct (clicked u) as [[]|] eqn:Hc; try discriminate.
  - destruct (submit_run s u C P Hc A)
      as (rs & qs & q & role & ty & dom & H1 & H2 & H3 & H4 & H5 & _ & _ & _ & E).
    cbn in E. exists rs, qs. eexists. unfold after, ending. rewrite E. cbn.
    repeat split; trivial.
  - destruct (skip_run s u C P Hc) as (rs & qs & q & H1 & H2 & H3 & H4 & H5 & E).
    exists rs, qs. eexists. unfold after, ending. rewrite E. cbn.
    repeat split; trivial.
Qed.

Lemma start_run s u :
  consistent s -> phase_of s = Setup -> clicked u = Some StartInterview ->
  interview_page u s =
    if generation_succeeded (fst (generation u))
    then (inr RerunException,
          set_interview_started true
            (set_questions (fst (generation u)) (configured u s)),
          snd (generation u))
    else (inl tt, set_questions (fst (generation u)) (configured u s),
          snd (generation u) ++ [Notice Error start_failed_notice]).
Proof.
  intros C P Hc. unfold generation.
  destruct (setup_shape s C P) as [-> | (qs & cur & jr & d & ty & n & ->)].
  - run_page. rewrite Hc. cbn.
    destruct (generate_llm_questions_gemini _ _ _ _ _) as [generated trace].
    cbn. destruct (generation_succeeded generated); cbn;
      now rewrite ?app_nil_r.
  - run_page. rewrite Hc. cbn.
    destruct (generate_llm_questions_gemini _ _ _ _ _) as [generated trace].
    cbn. destruct (generation_succeeded generated); cbn;
      now rewrite ?app_nil_r.
Qed.

Lemma replicate_sentinel_fails (sentinel : string) (n : Z) :
  Py.contains "Could not generate" sentinel = true ->
  generation_succeeded (Py.replicate sentinel n) = false.
Proof.
  intros H. unfold Py.replicate. destruct (Z.to_nat n); cbn -[Py.contains].
  - reflexivity.
  - now rewrite H.
Qed.

Lemma failed_call_fails u :
  model u = Blocked \/ (exists e, model u = Raises e) ->
  generation_succeeded (fst (generation u)) = false.
Proof.
  unfold generation. intros [E | [e E]]; rewrite E; cbn -[Py.contains];
    now apply replicate_sentinel_fails.
Qed.

Lemma advance_counts s u rs qs :
  consistent s -> interview_started s = Some true ->
  final_report s = Some None ->
  all_responses s = Some rs -> questions s = Some qs ->
  is_advance u = true ->
  consistent (after u s) /\ interview_started (after u s) = Some true /\
  final_report (after u s) = Some None /\
  questions (after u s) = Some qs /\
  exists rs', all_responses (after u s) = Some rs' /\
              Py.len rs' = Z.min (Py.len rs + 1) (Py.len qs).
Proof.
  intros C St Fr Hr Hq A. split; [now apply step_consistent|].
  destruct (phase_of s) eqn:P.
  - exfalso. unfold phase_of in P. rewrite St, Hq, Fr in P.
    destruct C; [discriminate|]. cbn in P.
    destruct (_ <? _); discriminate.
  - destruct (advance_run s u C P A)
      as (rs0 & qs0 & record & H1 & H2 & H3 & H4 & E & _).
    rewrite E. unfold advanced. rewrite H1, H3. cbn.
    rewrite St, Fr, Hq. repeat split.
    exists (rs0 ++ [record]). split; [reflexivity|].
    rewrite len_app. assert (rs0 = rs) as -> by congruence.
    assert (qs0 = qs) as -> by congruence. lia.
  - destruct (finished_shape s C (or_introl P))
      as (rs0 & qs0 & cur & fr & jr & d & ty & n & -> & F & _).
    cbn in *. injection Hr as ->. injection Hq as ->. injection Fr as ->.
    unfold is_advance in A.
    assert (E : after u (mkState (Some true) (Some rs) (Some (Py.len rs))
                  (Some qs) (Some cur) (Some None) (Some jr) (Some d)
                  (Some ty) (Some n)) = mkState (Some true) (Some rs)
                  (Some (Py.len rs)) (Some qs) (Some cur) (Some None)
                  (Some jr) (Some d) (Some ty) (Some n)).
    { run_page. rewrite F, Z.ltb_irrefl. cbn.
      destruct (clicked u) as [[]|]; try discriminate; reflexivity. }
    rewrite E. cbn. repeat split. exists rs. split; [reflexivity|lia].
  - exfalso. unfold phase_of in P. rewrite St, Hq, Fr in P.
    destruct C; [discriminate|]. cbn in P.
    destruct (_ <? _); discriminate.
Qed.

Lemma advances_count us : forall s rs qs,
  consistent s -> interview_started s = Some true ->
  final_report s = Some None ->
  all_responses s = Some rs -> questions s = Some qs ->
  Forall (fun u => is_advance u = true) us ->
  consistent (run_all us s) /\ interview_started (run_all us s) = Some true /\
  final_report (run_all us s) = Some None /\
  questions (run_all us s) = Some qs /\
  exists rs', all_responses (run_all us s) = Some rs' /\
              Py.len rs' = Z.min (Py.len rs + Py.len us) (Py.len qs).
Proof.
  induction us as [|u us IH]; intros s rs qs C St Fr Hr Hq A.
  - cbn. repeat split; trivial. exists rs. split; trivial.
    destruct C; [discriminate|]. cbn in *.
    injection Hr as ->. injection Hq as ->. lia.
  - inversion A as [|? ? Au Aus]; subst.
    destruct (advance_counts s u rs qs C St Fr Hr Hq Au)
      as (C1 & St1 & Fr1 & Hq1 & rs1 & Hr1 & L1).
    destruct (IH (after u s) rs1 qs C1 St1 Fr1 Hr1 Hq1 Aus)
      as (C2 & St2 & Fr2 & Hq2 & rs2 & Hr2 & L2).
    change (run_all (u :: us) s) with (run_all us (after u s)).
    repeat split; trivial. exists rs2. split; trivial.
    rewrite L2, L1.
    replace (Py.len (u :: us)) with (Py.len us + 1)
      by (unfold Py.len; cbn [List.length]; lia).
    pose proof (len_nonneg us). lia.
Qed.

Lemma summary_screen_shown s u :
  consistent s -> phase_of s = Summary \/ phase_of s = Reported ->
  exists t, trace_of u s = Notice Success interview_completed :: t.
Proof.
  intros C P.
  destruct (finished_shape s C P)
    as (rs & qs & cur & fr & jr & d & ty & n & -> & F & _).
  run_page. rewrite F, Z.ltb_irrefl. cbn.
  destruct fr; cbn.
  - destruct (clicked u) as [[]|]; cbn; eauto.
  - destruct (clicked u) as [[]|]; cbn; eauto.
    destruct (generate_final_report_gemini _ _ _ _) as [[t|e] tr]; cbn; eauto.
Qed.


(** The phase after a successful start and any number of advances: in
    progress while they are fewer than the questions, summary from then
    on. *)
Lemma phase_after_advances s start us :
  consistent s -> phase_of s = Setup ->
  clicked start = Some StartInterview ->
  interview_started (after start s) = Some true ->
  Forall (fun u => is_advance u = true) us ->
  questions (after start s) = Some (fst (generation start)) /\
  Py.len (fst (generation start)) <= slider_int (input_num_questions start) /\
  consistent (run_all us (after start s)) /\
  phase_of (run_all us (after start s))
  = if Py.len us <? Py.len (fst (generation start)) then InProgress
    else Summary.
Proof.
  intros R P Hc St A.
  pose proof (start_run s start R P Hc) as E.
  pose proof (step_consistent start s R) as C1.
  unfold after in St, C1 |- *.
  destruct (generation_succeeded (fst (generation start))) eqn:G;
    rewrite E in St, C1 |- *; cbn in St, C1 |- *; [|discriminate].
  set (s1 := set_interview_started true _) in *.
  destruct (advances_count us s1 [] (fst (generation start)) C1)
    as (C2 & St2 & Fr2 & Hq2 & rs2 & Hr2 & L2); trivial.
  repeat split; trivial.
  - apply generate_len.
    pose proof (slider_bounds (input_num_questions start)). lia.
  - unfold phase_of. rewrite St2, Hq2, Fr2.
    destruct C2; [discriminate|]. cbn in *.
    injection Hr2 as ->. injection Hq2 as ->.
    pose proof (len_nonneg us).
    destruct (Py.len us <? Py.len (fst (generation start))) eqn:K.
    + apply Z.ltb_lt in K.
      replace (Py.len rs2 <? Py.len (fst (generation start))) with true;
        [reflexivity|]. symmetry. apply Z.ltb_lt. lia.
    + apply Z.ltb_ge in K.
      replace (Py.len rs2 <? Py.len (fst (generation start))) with false;
        [reflexivity|]. symmetry. apply Z.ltb_ge. lia.
Qed.

(** Each phase runs its screen. *)
Lemma page_by_phase s u :
  consistent s ->
  interview_page u s =
  match phase_of s with
  | Setup => (initialize ;; setup_screen u) s
  | InProgress => interview_screen u s
  | Summary | Reported => summary_screen u s
  end.
Proof.
  intros C. destruct (phase_of s) eqn:P.
  - destruct (setup_shape s C P) as [-> | (qs & cur & jr & d & ty & n & ->)];
      unfold interview_page, bind, attr, initialize, ret, assign;
      cbn -[setup_screen];
      now destruct (setup_screen u _) as [[r s2] t2].
  - destruct (in_progress_shape s C P)
      as (rs & qs & cur & jr & d & ty & n & q & -> & L & Hq).
    apply Z.ltb_lt in L. unfold interview_page, bind, attr, initialize, ret.
    cbn -[interview_screen]. rewrite L.
    now destruct (interview_screen u _) as [[r s2] t2].
  - destruct (finished_shape s C (or_introl P))
      as (rs & qs & cur & fr & jr & d & ty & n & -> & F & _).
    unfold interview_page, bind, attr, initialize, ret.
    cbn -[summary_screen]. rewrite F, Z.ltb_irrefl.
    now destruct (summary_screen u _) as [[r s2] t2].
  - destruct (finished_shape s C (or_intror P))
      as (rs & qs & cur & fr & jr & d & ty & n & -> & F & _).
    unfold interview_page, bind, attr, initialize, ret.
    cbn -[summary_screen]. rewrite F, Z.ltb_irrefl.
    now destruct (summary_screen u _) as [[r s2] t2].
Qed.

Lemma report_raises_from_average role ty records response e :
  fst (generate_final_report_gemini role ty records response) = inr e ->
  e = ValueError \/ e = OverflowError.
Proof.
  unfold generate_final_report_gemini, report_prompt.
  destruct (score_loop _ _ _ _) as [[[total count] parts]|e0] eqn:L.
  - destruct (avg_score total count); cbn.
    + destruct response; discriminate.
    + right. congruence.
  - rewrite score_loop_spec in L.
    destruct (scores_within_limit records); [discriminate|].
    cbn. left. congruence.
Qed.

(** No attribute is read before it is assigned and no index is out of
    range: the only exceptions that can escape a run are those of the
    computation of the average, the [ValueError] of [int] and the
    [OverflowError] of the division. *)
Lemma only_average_errors_escape s u e :
  consistent s -> ending u s = inr (Uncaught e) ->
  e = ValueError \/ e = OverflowError.
Proof.
  intros C.
  destruct C as [|started rs qs cur fr jr d ty n H1 H2 H3 H4 H6].
  - run_page. destruct (clicked u) as [[]|]; cbn; try discriminate.
    destruct (generate_llm_questions_gemini _ _ _ _ _) as [generated trace].
    cbn. destruct (generation_succeeded generated); cbn; discriminate.
  - destruct started.
    + destruct (Py.len rs <? Py.len qs) eqn:L.
      * destruct (index_in_range qs (Py.len rs)) as [q Hq];
          [apply Z.ltb_lt in L; pose proof (len_nonneg rs); lia|].
        run_page. rewrite L. cbn. rewrite Hq. cbn.
        destruct (clicked u) as [[]|]; cbn; try discriminate.
        -- destruct (recognize_speech_live _); cbn; discriminate.
        -- destruct (Py.truthy _); cbn; [|discriminate].
           destruct (evaluate_llm_answer_gemini _ _ _ _ _ _); cbn; discriminate.
      * run_page. rewrite L. cbn. destruct fr as [r|]; cbn.
        -- destruct (clicked u) as [[]|]; cbn; discriminate.
        -- destruct (clicked u) as [[]|]; cbn; try discriminate.
           destruct (generate_final_report_gemini _ _ _ _) as [[t|e0] tr] eqn:G;
             cbn; [discriminate|].
           intros [= <-].
           apply (report_raises_from_average jr ty rs (model u)).
           now rewrite G.
    + run_page. destruct (clicked u) as [[]|]; cbn; try discriminate.
      destruct (generate_llm_questions_gemini _ _ _ _ _) as [generated trace].
      cbn. destruct (generation_succeeded generated); cbn; discriminate.
Qed.

End Screens.

(* ================================================================= *)
(** ** The properties of the session *)

(** C1.  In every reachable store of a started interview the current
    question index is the number of recorded responses; a skip, and a
    submit of a non-empty answer, append exactly one record and add
    exactly one to the index, so the equality holds again after the
    advance. *)
Theorem index_equals_record_count (s : session_state) (u : run) :
  reachable s -> interview_started s = Some true ->
  exists rs,
    all_responses s = Some rs /\
    current_question_idx s = Some (Py.len rs) /\
    (phase_of s = InProgress -> is_advance u = true ->
     exists record,
       all_responses (after u s) = Some (rs ++ [record])%list /\
       current_question_idx (after u s) = Some (Py.len rs + 1) /\
       Py.len (rs ++ [record]) = Py.len rs + 1).
Proof.
  intros R St. apply reachable_consistent in R.
  assert (exists rs, all_responses s = Some rs /\
                     current_question_idx s = Some (Py.len rs)) as (rs & Hr0 & Hi0).
  { destruct R; [discriminate|]. cbn. eauto. }
  exists rs. repeat split; trivial.
  intros P A.
  destruct (advance_run _ u R P A) as (rs' & qs' & record & Hr & _ & _ & _ & Ha & _).
  rewrite Hr0 in Hr. injection Hr as <-.
  exists record. rewrite Ha. unfold advanced. rewrite Hr0, Hi0. cbn.
  repeat split. apply len_app.
Qed.

Lemma second_question_index :
  exists rs,
    all_responses second_question = Some rs /\
    current_question_idx second_question = Some (Py.len rs) /\
    (phase_of second_question = InProgress ->
     is_advance (click SkipQuestion "" Blocked) = true ->
     exists record,
       all_responses (after (click SkipQuestion "" Blocked) second_question)
       = Some (rs ++ [record]) /\
       current_question_idx (after (click SkipQuestion "" Blocked)
                                   second_question)
       = Some (Py.len rs + 1) /\
       Py.len (rs ++ [record]) = Py.len rs + 1).
Proof.
  apply (index_equals_record_count second_question
           (click SkipQuestion "" Blocked)).
  - unfold second_question, first_question. repeat constructor.
  - vm_compute. reflexivity.
Defined.

(** C3, as the script has it.  When question generation fails or is
    blocked (the model call raises, the response has no parts, or what the
    gateway returns is empty or starts with a text containing [Could not
    generate]), the start is aborted: the phase stays [Setup], the
    interview is not started, responses, index and report keep their
    initial values, the run ends without a rerun and its last notice is
    the error.  The [questions] attribute holds what the gateway
    returned. *)
Theorem failed_generation_aborts_start (s : session_state) (u : run) :
  reachable s -> phase_of s = Setup -> clicked u = Some StartInterview ->
  model u = Blocked \/ (exists e, model u = Raises e) \/
    generation_succeeded (fst (generation u)) = false ->
  phase_of (after u s) = Setup /\
  interview_started (after u s) = Some false /\
  all_responses (after u s) = Some [] /\
  current_question_idx (after u s) = Some 0 /\
  final_report (after u s) = Some None /\
  questions (after u s) = Some (fst (generation u)) /\
  ending u s = inl tt /\
  trace_of u s = snd (generation u) ++ [Notice Error start_failed_notice].
Proof.
  intros R P Hc F. apply reachable_consistent in R.
  assert (G : generation_succeeded (fst (generation u)) = false).
  { destruct F as [F | [F | F]]; auto using failed_call_fails. }
  unfold after, ending, trace_of. rewrite (start_run s u R P Hc), G. cbn.
  repeat split.
Qed.

Lemma blocked_start_aborted :
  phase_of (after blocked_start empty) = Setup /\
  interview_started (after blocked_start empty) = Some false /\
  all_responses (after blocked_start empty) = Some [] /\
  current_question_idx (after blocked_start empty) = Some 0 /\
  final_report (after blocked_start empty) = Some None /\
  questions (after blocked_start empty) = Some (fst (generation blocked_start)) /\
  ending blocked_start empty = inl tt /\
  trace_of blocked_start empty
  = snd (generation blocked_start) ++ [Notice Error start_failed_notice].
Proof.
  apply (failed_generation_aborts_start empty blocked_start).
  - constructor.
  - reflexivity.
  - reflexivity.
  - left. reflexivity.
Defined.

(** C3 as stated fails: after a blocked generation the store does hold
    questions, five copies of the sentinel. *)
Lemma blocked_generation_stores_sentinels :
  reachable empty /\
  clicked blocked_start = Some StartInterview /\
  model blocked_start = Blocked /\
  phase_of (after blocked_start empty) = Setup /\
  questions (after blocked_start empty)
  = Some [block_sentinel; block_sentinel; block_sentinel; block_sentinel;
          block_sentinel] /\
  questions (after blocked_start empty) <> Some [].
Proof.
  repeat split; try constructor; vm_compute; discriminate.
Qed.

(** C4, as the script has it.  The reset button is on the summary screen
    only.  From [Summary] and from [Reported] a click on it deletes every
    attribute, which leaves the store of a new session, and asks for a
    rerun; while the interview is in progress the button is not shown and
    the click changes nothing. *)
Theorem reset_after_last_question (s : session_state) (u : run) :
  reachable s -> clicked u = Some StartNewInterview ->
  (phase_of s = Summary \/ phase_of s = Reported ->
   interview_page u s =
     (inr RerunException, empty, [Notice Success interview_completed])) /\
  (phase_of s = InProgress -> interview_page u s = (inl tt, s, [])).
Proof.
  intros R Hc. apply reachable_consistent in R. split; intros P.
  - destruct (finished_shape s R P)
      as (rs & qs & cur & fr & jr & d & ty & n & -> & F & _).
    run_page. rewrite F, Z.ltb_irrefl. cbn. rewrite Hc.
    destruct fr; reflexivity.
  - destruct (in_progress_shape s R P)
      as (rs & qs & cur & jr & d & ty & n & q & -> & L & Hq).
    apply Z.ltb_lt in L. run_page. rewrite L. cbn. rewrite Hq, Hc. reflexivity.
Qed.

Lemma reported_session_reset :
  (phase_of reported = Summary \/ phase_of reported = Reported ->
   interview_page (click StartNewInterview "" Blocked) reported
   = (inr RerunException, empty, [Notice Success interview_completed])) /\
  (phase_of reported = InProgress ->
   interview_page (click StartNewInterview "" Blocked) reported
   = (inl tt, reported, [])).
Proof.
  apply (reset_after_last_question reported
           (click StartNewInterview "" Blocked)).
  - unfold reported, summary, third_question, second_question, first_question.
    repeat constructor.
  - reflexivity.
Defined.

(** C4 as stated fails: with one of three questions answered, the reset
    click leaves the store as it is. *)
Lemma no_reset_while_in_progress :
  reachable second_question /\
  phase_of second_question = InProgress /\
  clicked (click StartNewInterview "" Blocked) = Some StartNewInterview /\
  after (click StartNewInterview "" Blocked) second_question = second_question /\
  after (click StartNewInterview "" Blocked) second_question <> empty.
Proof.
  split; [unfold second_question, first_question; repeat constructor|].
  repeat split; vm_compute; discriminate.
Qed.

(** C5.  While the interview is in progress a submit with an empty answer
    changes nothing in the store, calls nothing (the trace holds the
    warning alone, no [GenerateContent]) and the run ends without a
    rerun. *)
Theorem empty_answer_rejected (s : session_state) (u : run) :
  reachable s -> phase_of s = InProgress ->
  clicked u = Some SubmitAnswer -> input_answer u = "" ->
  interview_page u s = (inl tt, s, [Notice Warning empty_answer_warning]).
Proof.
  intros R P Hc Ha. apply reachable_consistent in R.
  destruct (in_progress_shape s R P)
    as (rs & qs & cur & jr & d & ty & n & q & -> & L & Hq).
  apply Z.ltb_lt in L.
  run_page. rewrite L; cbn. rewrite Hq, Hc, Ha. reflexivity.
Qed.

Lemma first_question_empty_submit :
  interview_page (click SubmitAnswer "" Blocked) first_question
  = (inl tt, first_question, [Notice Warning empty_answer_warning]).
Proof.
  apply (empty_answer_rejected first_question (click SubmitAnswer "" Blocked)).
  - unfold first_question. repeat constructor.
  - vm_compute. reflexivity.
  - reflexivity.
  - reflexivity.
Defined.

(** C6.  From a setup store, after a start that succeeded and as many
    advances as the slider asked questions, the phase is [Summary]: with
    nothing else clicked, the next run shows the summary screen.  (The
    gateway returns at most that many questions; an advance clicked once
    the summary is reached finds no button and does nothing.) *)
Theorem summary_after_question_count_advances
    (s : session_state) (start : run) (us : list run) :
  reachable s -> phase_of s = Setup ->
  clicked start = Some StartInterview ->
  interview_started (after start s) = Some true ->
  Forall (fun u => is_advance u = true) us ->
  Py.len us = slider_int (input_num_questions start) ->
  phase_of (run_all us (after start s)) = Summary /\
  forall u, exists t,
    trace_of u (run_all us (after start s))
    = Notice Success interview_completed :: t.
Proof.
  intros R P Hc St A N. apply reachable_consistent in R.
  destruct (phase_after_advances s start us R P Hc St A) as (_ & B & C & Ph).
  assert (K : (Py.len us <? Py.len (fst (generation start))) = false)
    by (apply Z.ltb_ge; lia).
  rewrite K in Ph. split; [exact Ph|].
  intros u. apply summary_screen_shown; auto.
Qed.

Lemma three_advances_reach_summary :
  phase_of (run_all [click SkipQuestion "" Blocked;
                     click SubmitAnswer "Pick two." (Text feedback_six);
                     click SkipQuestion "" Blocked]
                    (after backend_start empty)) = Summary /\
  forall u, exists t,
    trace_of u (run_all [click SkipQuestion "" Blocked;
                         click SubmitAnswer "Pick two." (Text feedback_six);
                         click SkipQuestion "" Blocked]
                        (after backend_start empty))
    = Notice Success interview_completed :: t.
Proof.
  apply (summary_after_question_count_advances empty backend_start).
  - constructor.
  - reflexivity.
  - reflexivity.
  - vm_compute. reflexivity.
  - repeat constructor.
  - reflexivity.
Defined.

(** C7.  A report that is set stays as it is until the reset: every run
    on a store with a report either is the reset or leaves the store
    untouched and calls nothing, a second request for the report
    included.  And a report appears only through the report button, on a
    store without one whose index is the number of questions. *)
Theorem final_report_set_once (s : session_state) (u : run) :
  reachable s ->
  (forall text, final_report s = Some (Some text) ->
     (clicked u = Some StartNewInterview /\ after u s = empty) \/
     interview_page u s = (inl tt, s, [Notice Success interview_completed])) /\
  (forall text, final_report (after u s) = Some (Some text) ->
     final_report s = Some (Some text) \/
     (final_report s = Some None /\ clicked u = Some GenerateFinalReport /\
      exists qs, questions s = Some qs /\
                 current_question_idx s = Some (Py.len qs))).
Proof.
  intros R. apply reachable_consistent in R.
  destruct R as [|started rs qs cur fr jr d ty n H1 H2 H3 H4 H6].
  - split; intros text; [discriminate|].
    run_page. destruct (clicked u) as [[]|]; cbn; try discriminate.
    destruct (generate_llm_questions_gemini _ _ _ _ _) as [generated trace].
    cbn. destruct (generation_succeeded generated); cbn; discriminate.
  - destruct started.
    + destruct (Py.len rs <? Py.len qs) eqn:L.
      * assert (FR : fr = None).
        { apply Z.ltb_lt in L. destruct fr; [|reflexivity].
          assert (Py.len rs = Py.len qs) by (apply H3; congruence). lia. }
        subst fr. split; intros text; [discriminate|].
        destruct (index_in_range qs (Py.len rs)) as [q Hq];
          [apply Z.ltb_lt in L; pose proof (len_nonneg rs); lia|].
        run_page. rewrite L. cbn. rewrite Hq. cbn.
        destruct (clicked u) as [[]|]; cbn; try discriminate.
        -- destruct (recognize_speech_live _); cbn; discriminate.
        -- destruct (Py.truthy _); cbn; [|discriminate].
           destruct (evaluate_llm_answer_gemini _ _ _ _ _ _); cbn; discriminate.
      * apply Z.ltb_ge in L.
        assert (F : Py.len rs = Py.len qs) by lia.
        split; intros text.
        -- cbn. intros [= ->]. run_page. rewrite F, Z.ltb_irrefl. cbn.
           destruct (clicked u) as [[]|]; cbn; auto.
        -- run_page. rewrite F, Z.ltb_irrefl. cbn. destruct fr as [r|]; cbn.
           ++ destruct (clicked u) as [[]|]; cbn; auto; discriminate.
           ++ destruct (clicked u) as [[]|] eqn:Hc; cbn; try discriminate.
              destruct (generate_final_report_gemini _ _ _ _) as [[t|e] tr];
                cbn; [|discriminate].
              intros _. right. repeat split. exists qs. cbn. split; congruence.
    + destruct H2 as [-> ->]; [reflexivity|].
      split; intros text; [discriminate|].
      run_page. destruct (clicked u) as [[]|]; cbn; try discriminate.
      destruct (generate_llm_questions_gemini _ _ _ _ _) as [generated trace].
      cbn. destruct (generation_succeeded generated); cbn; discriminate.
Qed.

Lemma reported_session_report_kept :
  (forall text, final_report reported = Some (Some text) ->
     (clicked (click GenerateFinalReport "" (Text "Again.")) = Some StartNewInterview /\
      after (click GenerateFinalReport "" (Text "Again.")) reported = empty) \/
     interview_page (click GenerateFinalReport "" (Text "Again.")) reported
     = (inl tt, reported, [Notice Success interview_completed])) /\
  (forall text,
     final_report (after (click GenerateFinalReport "" (Text "Again.")) reported)
     = Some (Some text) ->
     final_report reported = Some (Some text) \/
     (final_report reported = Some None /\
      clicked (click GenerateFinalReport "" (Text "Again.")) = Some GenerateFinalReport /\
      exists qs, questions reported = Some qs /\
                 current_question_idx reported = Some (Py.len qs))).
Proof.
  apply (final_report_set_once reported
           (click GenerateFinalReport "" (Text "Again."))).
  unfold reported, summary, third_question, second_question, first_question.
  repeat constructor.
Defined.

(** C8.  While the interview is in progress a skip is always taken: it
    appends the record of the current question with the answer [Skipped]
    and the feedback [No feedback.], adds one to the index, calls nothing
    (the trace is empty) and asks for a rerun; the new record is the last
    one, and when it was the last question the phase is [Summary]. *)
Theorem skip_appends_sentinel_record (s : session_state) (u : run) :
  reachable s -> phase_of s = InProgress -> clicked u = Some SkipQuestion ->
  exists rs qs q,
    all_responses s = Some rs /\ questions s = Some qs /\
    Py.index qs (Py.len rs) = Some q /\
    let record := mkRecord q "Skipped" "No feedback." in
    interview_page u s = (inr RerunException, advanced record s, []) /\
    all_responses (after u s) = Some (rs ++ [record])%list /\
    current_question_idx (after u s) = Some (Py.len rs + 1) /\
    Py.index (rs ++ [record]) (Py.len rs) = Some record /\
    (Py.len rs + 1 = Py.len qs -> phase_of (after u s) = Summary).
Proof.
  intros R P Hc. apply reachable_consistent in R.
  destruct (in_progress_shape s R P)
    as (rs & qs & cur & jr & d & ty & n & q & -> & L & Hq).
  destruct (skip_run _ u R P Hc) as (rs' & qs' & q' & H1 & H2 & _ & _ & H5 & E).
  cbn in H1, H2. injection H1 as <-. injection H2 as <-.
  assert (q' = q) as -> by congruence.
  exists rs, qs, q. cbn zeta. unfold after. rewrite E. cbn.
  repeat split; trivial.
  - apply index_last.
  - intros F. unfold phase_of; cbn. rewrite F, Z.ltb_irrefl. reflexivity.
Qed.

Lemma third_question_skipped :
  exists rs qs q,
    all_responses third_question = Some rs /\
    questions third_question = Some qs /\
    Py.index qs (Py.len rs) = Some q /\
    let record := mkRecord q "Skipped" "No feedback." in
    interview_page (click SkipQuestion "" Blocked) third_question
    = (inr RerunException, advanced record third_question, []) /\
    all_responses (after (click SkipQuestion "" Blocked) third_question)
    = Some (rs ++ [record]) /\
    current_question_idx (after (click SkipQuestion "" Blocked) third_question)
    = Some (Py.len rs + 1) /\
    Py.index (rs ++ [record]) (Py.len rs) = Some record /\
    (Py.len rs + 1 = Py.len qs ->
     phase_of (after (click SkipQuestion "" Blocked) third_question) = Summary).
Proof.
  apply (skip_appends_sentinel_record third_question
           (click SkipQuestion "" Blocked)).
  - unfold third_question, second_question, first_question.
    repeat constructor.
  - vm_compute. reflexivity.
  - reflexivity.
Defined.

(** The scenario of the specification: Backend Engineer, technical, three
    questions, two answers and a skip. *)
Example backend_engineer_scenario :
  exists r1 r2 r3,
    all_responses summary = Some [r1; r2; r3] /\
    Py.len [r1; r2; r3] = 3 /\
    option_map answer (Py.index [r1; r2; r3] 2) = Some "Skipped" /\
    feedback r3 = "No feedback." /\
    current_question_idx summary = Some 3 /\
    phase_of summary = Summary.
Proof.
  do 3 eexists. vm_compute. repeat split.
Qed.

(** C10.  In every reachable store the responses are no more than the
    questions, and the index is their number; once they are as many, the
    submit and skip buttons are not on the page and a click on them
    changes nothing. *)
Theorem records_never_exceed_questions
    (s : session_state) (u : run) (rs : list AnswerRecord) (qs : list string) :
  reachable s -> all_responses s = Some rs -> questions s = Some qs ->
  Py.len rs <= Py.len qs /\
  current_question_idx s = Some (Py.len rs) /\
  (interview_started s = Some true -> Py.len rs = Py.len qs ->
   clicked u = Some SubmitAnswer \/ clicked u = Some SkipQuestion ->
   after u s = s).
Proof.
  intros R Hr Hq. apply reachable_consistent in R.
  destruct R as [|started rs0 qs0 cur fr jr d ty n H1 H2 H3 H4 H6];
    [discriminate|].
  cbn in Hr, Hq. injection Hr as ->. injection Hq as ->.
  repeat split; trivial.
  cbn. intros St F Hc. injection St as ->.
  run_page. rewrite F, Z.ltb_irrefl. cbn.
  destruct fr; destruct Hc as [-> | ->]; reflexivity.
Qed.

Lemma summary_records_bounded :
  Py.len (match all_responses summary with Some rs => rs | None => [] end)
  <= Py.len (match questions summary with Some qs => qs | None => [] end) /\
  current_question_idx summary
  = Some (Py.len (match all_responses summary with Some rs => rs | None => [] end)) /\
  (interview_started summary = Some true ->
   Py.len (match all_responses summary with Some rs => rs | None => [] end)
   = Py.len (match questions summary with Some qs => qs | None => [] end) ->
   clicked (click SkipQuestion "" Blocked) = Some SubmitAnswer \/
   clicked (click SkipQuestion "" Blocked) = Some SkipQuestion ->
   after (click SkipQuestion "" Blocked) summary = summary).
Proof.
  apply (records_never_exceed_questions summary (click SkipQuestion "" Blocked)).
  - unfold summary, third_question, second_question, first_question.
    repeat constructor.
  - vm_compute. reflexivity.
  - vm_compute. reflexivity.
Defined.

(* ================================================================= *)
(** ** The properties of the gateway *)

(** C9, as the script has it.  For a count that is not negative, the
    questions generated from a response with text are the lines of the
    response, each without its surrounding whitespace, those with nothing
    left dropped, in their order, cut to the first [count]; a blocked
    response gives [count] copies of the block sentinel and a failed call
    [count] copies of the error sentinel; in every case no more than
    [count] come back. *)
Theorem generated_questions_are_trimmed_lines
    (role ty dom : string) (count : Z) :
  0 <= count ->
  (forall text,
     fst (generate_llm_questions_gemini role ty count dom (Text text))
     = firstn (Z.to_nat count) (trimmed_lines (Py.split_lines text))) /\
  fst (generate_llm_questions_gemini role ty count dom Blocked)
  = repeat block_sentinel (Z.to_nat count) /\
  (forall e,
     fst (generate_llm_questions_gemini role ty count dom (Raises e))
     = repeat error_sentinel (Z.to_nat count)) /\
  (forall response,
     Py.len (fst (generate_llm_questions_gemini role ty count dom response))
     <= count).
Proof.
  intros H. repeat split.
  - intros text. cbn. unfold Py.slice_to.
    destruct (0 <=? count) eqn:E; [|apply Z.leb_gt in E; lia].
    now rewrite question_lines_trimmed.
  - intros response. now apply generate_len.
Qed.

Lemma three_generated_questions :
  (forall text,
     fst (generate_llm_questions_gemini "Backend Engineer" technical 3 "" (Text text))
     = firstn (Z.to_nat 3) (trimmed_lines (Py.split_lines text))) /\
  fst (generate_llm_questions_gemini "Backend Engineer" technical 3 "" Blocked)
  = repeat block_sentinel (Z.to_nat 3) /\
  (forall e,
     fst (generate_llm_questions_gemini "Backend Engineer" technical 3 "" (Raises e))
     = repeat error_sentinel (Z.to_nat 3)) /\
  (forall response,
     Py.len (fst (generate_llm_questions_gemini "Backend Engineer" technical 3 ""
                    response))
     <= 3).
Proof.
  apply (generated_questions_are_trimmed_lines "Backend Engineer" technical "" 3).
  lia.
Defined.

(** C9 as stated fails: the non-empty lines of the response [padded_reply]
    are [ Q1], a line of one space and [Q2]; the script returns [Q1] and
    [Q2]. *)
Lemma generated_questions_not_nonempty_lines :
  nonempty_lines padded_reply = [" Q1"; " "; "Q2"] /\
  fst (generate_llm_questions_gemini "Software Engineer" technical 3 "Backend"
         (Text padded_reply)) = ["Q1"; "Q2"] /\
  fst (generate_llm_questions_gemini "Software Engineer" technical 3 "Backend"
         (Text padded_reply))
  <> firstn 3 (nonempty_lines padded_reply).
Proof.
  repeat split. vm_compute. discriminate.
Qed.

(** On small operands the quotient of [Float.true_div] is the one of the
    Standard Library's IEEE 754 division. *)
Example true_div_agrees_with_ieee_div :
  Float.agree_upto 120 12 = true /\
  forallb (fun '(a, b) => Float.same_value (Float.true_div a b)
                                           (Float.ieee_div a b))
          [(2 ^ 52 + 1, 3); (2 ^ 53 - 1, 2 ^ 53 - 2); (1, 2 ^ 53 - 1);
           (9007199254740991, 10); (123456789012345, 977); (7, 20); (9, 20)]
  = true.
Proof. split; vm_compute; reflexivity. Qed.

Lemma report_prompt_spec role ty records :
  report_prompt role ty records
  = if scores_within_limit records
    then match avg_score (sum_of (parsed_scores records))
                         (Py.len (parsed_scores records)) with
         | Some avg => inl (report_text role ty records (Float.format_1f avg))
         | None => inr OverflowError
         end
    else inr ValueError.
Proof.
  unfold report_prompt. rewrite score_loop_spec, !Z.add_0_l.
  destruct (scores_within_limit records); [|reflexivity].
  destruct (avg_score _ _); [|reflexivity].
  unfold report_text. now rewrite <- app_assoc.
Qed.




(** Ties go to the even neighbour, at both roundings: 29 over 4 records is
    7.25 and prints [7.2], 31 over 4 is 7.75 and prints [7.8]; and the
    tenth is the one nearest to the binary64 quotient, not to the exact
    one: the binary64 number for 1 over 20 lies above 0.05 and prints
    [0.1], the one for 3 over 20 lies below 0.15 and prints [0.1]. *)
Example average_ties_to_even :
  report_prompt "Backend Engineer" technical (scored [8; 7; 7; 7])
  = inl (report_text "Backend Engineer" technical (scored [8; 7; 7; 7]) "7.2") /\
  report_prompt "Backend Engineer" technical (scored [8; 8; 8; 7])
  = inl (report_text "Backend Engineer" technical (scored [8; 8; 8; 7]) "7.8") /\
  option_map Float.format_1f (Float.true_div 1 20) = Some "0.1"%string /\
  option_map Float.format_1f (Float.true_div 3 20) = Some "0.1"%string /\
  option_map Float.format_1f (Float.true_div 1 4) = Some "0.2"%string /\
  option_map Float.format_1f (Float.true_div 3 4) = Some "0.8"%string.
Proof. repeat split; vm_compute; reflexivity. Qed.

(** A score written with zeros in front counts its zeros against the limit
    of [int]: 4301 digits that write the number 7 raise as well. *)
Example zero_padded_score_raises :
  first_score (mkRecord "Q" "A"
                 ("Score: " ++ Py.repeat_string "0" 4300 ++ "7/10"))
  = Some 7 /\
  report_prompt "Backend Engineer" technical
    [mkRecord "Q" "A" ("Score: " ++ Py.repeat_string "0" 4300 ++ "7/10")]
  = inr ValueError /\
  report_prompt "Backend Engineer" technical
    [mkRecord "Q" "A" ("Score: " ++ Py.repeat_string "0" 4299 ++ "7/10")]
  = inl (report_text "Backend Engineer" technical
           [mkRecord "Q" "A" ("Score: " ++ Py.repeat_string "0" 4299 ++ "7/10")]
           "7.0").
Proof. repeat split; vm_compute; reflexivity. Qed.

(** The two examples of the specification: one record scored 7 gives
    [7.0], and records without a score give [0.0]. *)
Example single_score_seven :
  report_prompt "Backend Engineer" technical [mkRecord "Q" "A" feedback_seven]
  = inl (report_text "Backend Engineer" technical
           [mkRecord "Q" "A" feedback_seven] "7.0").
Proof. vm_compute. reflexivity. Qed.

Example no_score_gives_zero :
  report_prompt "Backend Engineer" technical
    [mkRecord "Q1" "Skipped" "No feedback."; mkRecord "Q2" "A" "Score: high"]
  = inl (report_text "Backend Engineer" technical
           [mkRecord "Q1" "Skipped" "No feedback.";
            mkRecord "Q2" "A" "Score: high"] "0.0").
Proof. vm_compute. reflexivity. Qed.

(* ================================================================= *)
(** ** The page is the machine *)

Section Machine.

Lemma page_machine s u :
  consistent s -> interview_page u s = machine u s.
Proof.
  intros C. unfold machine. destruct (phase_of s) eqn:P.
  - destruct (setup_shape s C P) as [-> | (qs & cur & jr & d & ty & n & ->)].
    + destruct (clicked u) as [b|] eqn:Hc.
      * destruct b; try (run_page; rewrite Hc; reflexivity).
        apply (start_run empty u C P Hc).
      * run_page. rewrite Hc. reflexivity.
    + destruct (clicked u) as [b|] eqn:Hc.
      * destruct b; try (run_page; rewrite Hc; reflexivity).
        apply (start_run _ u C P Hc).
      * run_page. rewrite Hc. reflexivity.
  - destruct (in_progress_shape s C P)
      as (rs & qs & cur & jr & d & ty & n & q & -> & L & Hq).
    unfold current_question, evaluation. cbn [questions current_question_idx
      job_role interview_type domain or_empty].
    rewrite Hq. apply Z.ltb_lt in L.
    run_page. rewrite L. cbn. rewrite Hq. cbn.
    destruct (clicked u) as [[]|]; cbn; try reflexivity.
    + destruct (recognize_speech_live (microphone u)) as [text trace]. cbn.
      now rewrite app_nil_r.
    + destruct (Py.truthy (input_answer u)); cbn; [|reflexivity].
      destruct (evaluate_llm_answer_gemini _ _ _ _ _ _) as [fb trace]. cbn.
      now rewrite app_nil_r.
  - destruct (finished_shape s C (or_introl P))
      as (rs & qs & cur & fr & jr & d & ty & n & -> & F & Fr & _).
    rewrite (Fr P). unfold report. cbn [all_responses job_role interview_type
      or_empty].
    run_page. rewrite F, Z.ltb_irrefl. cbn.
    destruct (clicked u) as [[]|]; cbn; try reflexivity.
    destruct (generate_final_report_gemini _ _ _ _) as [[text|e] trace]; cbn;
      now rewrite ?app_nil_r.
  - destruct (finished_shape s C (or_intror P))
      as (rs & qs & cur & fr & jr & d & ty & n & -> & F & _ & Fr).
    destruct fr as [r|]; [|now destruct (Fr P)].
    run_page. rewrite F, Z.ltb_irrefl. cbn.
    destruct (clicked u) as [[]|]; cbn; reflexivity.
Qed.

End Machine.

(* ================================================================= *)
(** ** Runs of a reachable session *)

Section Runs.

Lemma run_machine s u : reachable s -> interview_page u s = machine u s.
Proof. intros R. apply page_machine. now apply reachable_consistent. Qed.

Lemma model_calls_app t1 t2 :
  model_calls (t1 ++ t2) = (model_calls t1 + model_calls t2)%nat.
Proof.
  induction t1 as [|e t1 IH]; [reflexivity|].
  destruct e; cbn; now rewrite IH.
Qed.

Lemma generation_calls_once u : model_calls (snd (generation u)) = 1%nat.
Proof. unfold generation. now destruct (model u). Qed.

Lemma evaluation_calls_once u s q : model_calls (snd (evaluation u s q)) = 1%nat.
Proof. unfold evaluation. now destruct (model u). Qed.

Lemma report_error_of_average role ty records response e :
  fst (generate_final_report_gemini role ty records response) = inr e ->
  printed_average records = inr e.
Proof.
  unfold generate_final_report_gemini. rewrite report_prompt_spec.
  unfold printed_average.
  destruct (scores_within_limit records); [destruct (avg_score _ _)|]; cbn;
    [destruct response; discriminate|trivial..].
Qed.

Lemma printed_average_errors records e :
  printed_average records = inr e -> e = ValueError \/ e = OverflowError.
Proof.
  unfold printed_average.
  destruct (scores_within_limit records); [destruct (avg_score _ _)|];
    [discriminate|right; congruence|left; congruence].
Qed.

Lemma report_calls u s :
  match fst (report u s) with
  | inl _ => model_calls (snd (report u s)) = 1%nat
  | inr e => (e = ValueError \/ e = OverflowError) /\ snd (report u s) = []
  end.
Proof.
  unfold report.
  destruct (fst (generate_final_report_gemini _ _ _ _)) as [p|e] eqn:E.
  - revert E. unfold generate_final_report_gemini.
    destruct (report_prompt _ _ _); [|discriminate].
    now destruct (model u).
  - split; [now apply report_raises_from_average in E|].
    revert E. unfold generate_final_report_gemini.
    destruct (report_prompt _ _ _); [|reflexivity].
    destruct (model u); discriminate.
Qed.

Lemma recognition_calls_nothing h :
  model_calls (snd (recognize_speech_live h)) = 0%nat.
Proof. destruct h as [| | |[] ?]; reflexivity. Qed.

End Runs.

(** X1.  No attribute is read before it is assigned and no index is out
    of range: among the script's own operations (attribute reads, indexing,
    [int], division) only the computation of the average can end a run of
    a reachable store with an exception, on a click on the report button
    in the summary phase: the [ValueError] of [int] when the first score of
    a record has more than 4300 digits, or else the [OverflowError] of the
    division.  That run leaves the store as it was and has not called the
    model. *)
Theorem only_average_errors_can_escape (s : session_state) (u : run) :
  reachable s ->
  match ending u s with
  | inr (Uncaught e) =>
      (e = ValueError \/ e = OverflowError) /\
      (exists records,
         all_responses s = Some records /\ printed_average records = inr e /\
         (e = ValueError <-> scores_within_limit records = false)) /\
      clicked u = Some GenerateFinalReport /\
      phase_of s = Summary /\ after u s = s /\
      model_calls (trace_of u s) = 0%nat
  | _ => True
  end.
Proof.
  intros R. unfold ending, after, trace_of. rewrite (run_machine s u R).
  unfold machine. destruct (phase_of s) eqn:P.
  - destruct (clicked u) as [[]|]; cbn; trivial.
    now destruct (generation_succeeded _).
  - destruct (clicked u) as [[]|], (current_question s); cbn; trivial.
    now destruct (Py.truthy _).
  - destruct (clicked u) as [[]|] eqn:Hc; cbn; trivial.
    pose proof (report_calls u s) as H.
    destruct (fst (report u s)) as [text|e] eqn:E; cbn; trivial.
    destruct H as [He ->]. split; [exact He|]. split; [|repeat split].
    destruct (finished_shape s (reachable_consistent s R) (or_introl P))
      as (rs & qs & cur & fr & jr & d & ty & n & -> & _).
    exists rs. split; [reflexivity|].
    unfold report in E. cbn [all_responses] in E.
    apply report_error_of_average in E. split; [exact E|].
    unfold printed_average in E.
    destruct (scores_within_limit rs); [destruct (avg_score _ _)|].
    + discriminate.
    + injection E as <-. split; [discriminate|discriminate].
    + injection E as <-. split; reflexivity.
  - destruct (clicked u) as [[]|]; cbn; trivial.
Qed.

Lemma huge_score_overflows :
  ending (click GenerateFinalReport "" (Text "Fine.")) huge_score_summary
  = inr (Uncaught OverflowError) /\
  match ending (click GenerateFinalReport "" (Text "Fine.")) huge_score_summary with
  | inr (Uncaught e) =>
      (e = ValueError \/ e = OverflowError) /\
      (exists records,
         all_responses huge_score_summary = Some records /\
         printed_average records = inr e /\
         (e = ValueError <-> scores_within_limit records = false)) /\
      clicked (click GenerateFinalReport "" (Text "Fine."))
      = Some GenerateFinalReport /\
      phase_of huge_score_summary = Summary /\
      after (click GenerateFinalReport "" (Text "Fine.")) huge_score_summary
      = huge_score_summary /\
      model_calls (trace_of (click GenerateFinalReport "" (Text "Fine."))
                            huge_score_summary) = 0%nat
  | _ => True
  end.
Proof.
  split; [vm_compute; reflexivity|].
  apply (only_average_errors_can_escape huge_score_summary
           (click GenerateFinalReport "" (Text "Fine."))).
  unfold huge_score_summary. repeat constructor.
Defined.

(** Both exceptions occur: a score of 400 digits passes [int] and
    overflows the division, a score of 4301 digits is refused by [int]. *)
Example long_score_raises_value_error :
  phase_of long_score_summary = Summary /\
  ending (click GenerateFinalReport "" (Text "Fine.")) long_score_summary
  = inr (Uncaught ValueError) /\
  phase_of huge_score_summary = Summary /\
  ending (click GenerateFinalReport "" (Text "Fine.")) huge_score_summary
  = inr (Uncaught OverflowError).
Proof. repeat split; vm_compute; reflexivity. Qed.

(** X2.  A run calls the model at most once, and only on a click on the
    start, submit or report button. *)
Theorem at_most_one_model_call (s : session_state) (u : run) :
  reachable s ->
  (model_calls (trace_of u s) <= 1)%nat /\
  (model_calls (trace_of u s) = 1%nat ->
   clicked u = Some StartInterview \/ clicked u = Some SubmitAnswer \/
   clicked u = Some GenerateFinalReport).
Proof.
  intros R. unfold trace_of. rewrite (run_machine s u R).
  unfold machine. destruct (phase_of s) eqn:P.
  - destruct (clicked u) as [[]|]; cbn; try (split; [lia|discriminate]).
    destruct (generation_succeeded _); cbn;
      rewrite ?model_calls_app, generation_calls_once; cbn; auto.
  - destruct (clicked u) as [[]|], (current_question s) as [q|]; cbn;
      rewrite ?recognition_calls_nothing; try (split; [lia|discriminate]).
    destruct (Py.truthy _); cbn; [|split; [lia|discriminate]].
    rewrite evaluation_calls_once. auto.
  - destruct (clicked u) as [[]|]; cbn; try (split; [lia|discriminate]).
    pose proof (report_calls u s) as H.
    destruct (fst (report u s)) as [text|e]; cbn.
    + rewrite H. auto.
    + destruct H as [_ ->]. cbn. split; [lia|discriminate].
  - destruct (clicked u) as [[]|]; cbn; split; lia || discriminate.
Qed.

Lemma second_question_one_call :
  (model_calls (trace_of (click SubmitAnswer "Pick two." (Text feedback_six))
                         second_question) <= 1)%nat /\
  (model_calls (trace_of (click SubmitAnswer "Pick two." (Text feedback_six))
                         second_question) = 1%nat ->
   clicked (click SubmitAnswer "Pick two." (Text feedback_six))
   = Some StartInterview \/
   clicked (click SubmitAnswer "Pick two." (Text feedback_six))
   = Some SubmitAnswer \/
   clicked (click SubmitAnswer "Pick two." (Text feedback_six))
   = Some GenerateFinalReport).
Proof.
  apply (at_most_one_model_call second_question
           (click SubmitAnswer "Pick two." (Text feedback_six))).
  unfold second_question, first_question. repeat constructor.
Defined.

(** X3.  A run that no click caused never asks for a rerun and calls
    nothing; it keeps the phase, and it leaves the store of a started
    interview exactly as it was. *)
Theorem run_without_click (s : session_state) (u : run) :
  reachable s -> clicked u = None ->
  ending u s = inl tt /\
  model_calls (trace_of u s) = 0%nat /\
  phase_of (after u s) = phase_of s /\
  (interview_started s = Some true -> after u s = s).
Proof.
  intros R Hc. pose proof (reachable_consistent s R) as C.
  unfold ending, after, trace_of. rewrite (run_machine s u R).
  unfold machine. rewrite Hc. destruct (phase_of s) eqn:P; cbn.
  - repeat split.
    destruct (setup_shape s C P) as [-> | (qs & cur & jr & d & ty & n & ->)];
      discriminate.
  - repeat split; exact P.
  - repeat split; exact P.
  - repeat split; exact P.
Qed.

Lemma third_question_idle :
  ending (mkRun None "Data Engineer" "" BehavioralInterview
                (mkSlider 10 eq_refl) "draft" Blocked RequestError)
         third_question = inl tt /\
  model_calls (trace_of (mkRun None "Data Engineer" "" BehavioralInterview
                               (mkSlider 10 eq_refl) "draft" Blocked
                               RequestError)
                        third_question) = 0%nat /\
  phase_of (after (mkRun None "Data Engineer" "" BehavioralInterview
                         (mkSlider 10 eq_refl) "draft" Blocked RequestError)
                  third_question) = phase_of third_question /\
  (interview_started third_question = Some true ->
   after (mkRun None "Data Engineer" "" BehavioralInterview
                (mkSlider 10 eq_refl) "draft" Blocked RequestError)
         third_question = third_question).
Proof.
  apply (run_without_click third_question
           (mkRun None "Data Engineer" "" BehavioralInterview
                  (mkSlider 10 eq_refl) "draft" Blocked RequestError)).
  - unfold third_question, second_question, first_question.
    repeat constructor.
  - reflexivity.
Defined.

Section Phases.

Lemma phase_of_advanced s record :
  consistent s -> phase_of s = InProgress ->
  phase_of (advanced record s) = InProgress \/
  phase_of (advanced record s) = Summary.
Proof.
  intros C P.
  destruct (in_progress_shape s C P)
    as (rs & qs & cur & jr & d & ty & n & q & -> & L & Hq).
  unfold advanced, phase_of. cbn -[Py.len Z.ltb].
  destruct (Py.len rs + 1 <? Py.len qs); auto.
Qed.

Lemma phase_of_started_setup u s g :
  generation_succeeded g = true ->
  phase_of (set_interview_started true (set_questions g (configured u s)))
  = InProgress.
Proof.
  intros G. destruct g as [|q g]; [discriminate|].
  unfold phase_of. cbn -[Py.len Z.ltb]. rewrite len_cons.
  pose proof (len_nonneg g).
  destruct (0 <? 1 + Py.len g) eqn:E; [reflexivity|].
  apply Z.ltb_ge in E. lia.
Qed.

End Phases.

(** X4.  The phases are walked in order.  A run keeps the phase, or goes
    from [Setup] to [InProgress] on a start, from [InProgress] to
    [Summary] on an advance, from [Summary] to [Reported] on a click on
    the report button, or from [Summary] or [Reported] back to [Setup] on
    a click on the reset button; no other step exists. *)
Theorem phases_in_order (s : session_state) (u : run) :
  reachable s -> phase_step u (phase_of s) (phase_of (after u s)).
Proof.
  intros R. pose proof (reachable_consistent s R) as C.
  unfold after. rewrite (run_machine s u R).
  unfold machine, phase_step. destruct (phase_of s) eqn:P.
  - assert (K : forall w, phase_of (configured w s) = Setup) by reflexivity.
    destruct (clicked u) as [[]|] eqn:Hc; cbn [fst snd]; auto.
    destruct (generation_succeeded _) eqn:G; cbn [fst snd].
    + rewrite (phase_of_started_setup u s _ G). right. left. auto.
    + left. reflexivity.
  - destruct (clicked u) as [[]|] eqn:Hc, (current_question s) as [q|]; cbn [fst snd];
      auto.
    + destruct (Py.truthy (input_answer u)) eqn:T; cbn [fst snd]; auto.
      destruct (phase_of_advanced s (mkRecord q (input_answer u)
                  (fst (evaluation u s q))) C P) as [-> | ->]; auto.
      right. right. left. unfold is_advance. rewrite Hc. auto.
    + destruct (phase_of_advanced s (mkRecord q "Skipped" "No feedback.")
                  C P) as [-> | ->]; auto.
      right. right. left. unfold is_advance. rewrite Hc. auto.
  - destruct (clicked u) as [[]|] eqn:Hc; cbn [fst snd]; auto.
    + destruct (fst (report u s)) as [text|e]; cbn [fst snd]; auto.
      right. right. right. left.
      destruct (finished_shape s C (or_introl P))
        as (rs & qs & cur & fr & jr & d & ty & n & -> & F & _).
      unfold phase_of. cbn -[Py.len Z.ltb]. rewrite F, Z.ltb_irrefl. auto.
    + right. right. right. right. auto.
  - destruct (clicked u) as [[]|] eqn:Hc; cbn [fst snd]; auto.
    right. right. right. right. auto.
Qed.

Lemma summary_to_reported :
  phase_step (click GenerateFinalReport "" (Text "Solid basics."))
    (phase_of summary)
    (phase_of (after (click GenerateFinalReport "" (Text "Solid basics."))
                     summary)).
Proof.
  apply (phases_in_order summary
           (click GenerateFinalReport "" (Text "Solid basics."))).
  unfold summary, third_question, second_question, first_question.
  repeat constructor.
Defined.

(** X5.  Once the interview is started its configuration and its
    questions are fixed: a run either is the reset, which empties the
    store, or leaves the job role, the domain, the interview type, the
    number of questions and the list of questions as they were. *)
Theorem configuration_fixed_once_started (s : session_state) (u : run) :
  reachable s -> interview_started s = Some true ->
  (clicked u = Some StartNewInterview /\ after u s = empty) \/
  (interview_started (after u s) = Some true /\
   job_role (after u s) = job_role s /\
   domain (after u s) = domain s /\
   interview_type (after u s) = interview_type s /\
   num_questions (after u s) = num_questions s /\
   questions (after u s) = questions s).
Proof.
  intros R St. pose proof (reachable_consistent s R) as C.
  unfold after. rewrite (run_machine s u R).
  unfold machine. destruct (phase_of s) eqn:P.
  - destruct (setup_shape s C P) as [-> | (qs & cur & jr & d & ty & n & ->)];
      discriminate.
  - destruct (in_progress_shape s C P)
      as (rs & qs & cur & jr & d & ty & n & q' & -> & L & Hq).
    unfold current_question. cbn [questions current_question_idx].
    rewrite Hq.
    destruct (clicked u) as [[]|]; cbn [fst snd];
      try (right; repeat split; fail).
    destruct (Py.truthy _); cbn [fst snd]; right; repeat split.
  - destruct (clicked u) as [[]|]; cbn; auto; try (right; now repeat split).
    destruct (fst (report u s)); cbn; right; now repeat split.
  - destruct (clicked u) as [[]|]; cbn; auto; right; now repeat split.
Qed.

Lemma second_question_configuration :
  (clicked (click SkipQuestion "" Blocked) = Some StartNewInterview /\
   after (click SkipQuestion "" Blocked) second_question = empty) \/
  (interview_started (after (click SkipQuestion "" Blocked) second_question)
   = Some true /\
   job_role (after (click SkipQuestion "" Blocked) second_question)
   = job_role second_question /\
   domain (after (click SkipQuestion "" Blocked) second_question)
   = domain second_question /\
   interview_type (after (click SkipQuestion "" Blocked) second_question)
   = interview_type second_question /\
   num_questions (after (click SkipQuestion "" Blocked) second_question)
   = num_questions second_question /\
   questions (after (click SkipQuestion "" Blocked) second_question)
   = questions second_question).
Proof.
  apply (configuration_fixed_once_started second_question
           (click SkipQuestion "" Blocked)).
  - unfold second_question, first_question. repeat constructor.
  - vm_compute. reflexivity.
Defined.

(** X6.  The responses only grow, one at a time and at the end: a run
    empties the store (the reset), or keeps the responses, or appends one
    record to them on an advance; a record once appended is never changed
    or removed. *)
Theorem responses_append_only
    (s : session_state) (u : run) (rs : list AnswerRecord) :
  reachable s -> all_responses s = Some rs ->
  (clicked u = Some StartNewInterview /\ after u s = empty) \/
  all_responses (after u s) = Some rs \/
  (is_advance u = true /\
   exists record, all_responses (after u s) = Some (rs ++ [record])).
Proof.
  intros R Hr. pose proof (reachable_consistent s R) as C.
  unfold after. rewrite (run_machine s u R).
  unfold machine. destruct (phase_of s) eqn:P.
  - destruct (setup_shape s C P) as [-> | (qs & cur & jr & d & ty & n & ->)];
      [discriminate|].
    cbn in Hr. injection Hr as <-. right. left.
    destruct (clicked u) as [[]|]; cbn; trivial.
    now destruct (generation_succeeded _).
  - destruct (in_progress_shape s C P)
      as (rs' & qs & cur & jr & d & ty & n & q' & -> & L & Hq).
    cbn in Hr. injection Hr as ->.
    unfold current_question. cbn [questions current_question_idx].
    rewrite Hq.
    destruct (clicked u) as [[]|] eqn:Hc; cbn [fst snd]; auto;
      try (destruct (Py.truthy (input_answer u)) eqn:T; cbn [fst snd]; auto);
      right; right; (split; [unfold is_advance; now rewrite Hc, ?T|]);
      eexists; reflexivity.
  - destruct (clicked u) as [[]|]; cbn; auto.
    destruct (fst (report u s)); cbn; auto.
  - destruct (clicked u) as [[]|]; cbn; auto.
Qed.

Lemma third_question_appends :
  (clicked (click SkipQuestion "" Blocked) = Some StartNewInterview /\
   after (click SkipQuestion "" Blocked) third_question = empty) \/
  all_responses (after (click SkipQuestion "" Blocked) third_question)
  = Some (match all_responses third_question with
          | Some rs => rs | None => [] end) \/
  (is_advance (click SkipQuestion "" Blocked) = true /\
   exists record,
     all_responses (after (click SkipQuestion "" Blocked) third_question)
     = Some (match all_responses third_question with
             | Some rs => rs | None => [] end ++ [record])).
Proof.
  apply (responses_append_only third_question (click SkipQuestion "" Blocked)).
  - unfold third_question, second_question, first_question.
    repeat constructor.
  - vm_compute. reflexivity.
Defined.

(* ================================================================= *)
(** ** What the store holds *)

Section Contents.

Lemma firstn_snoc {A} (l : list A) (n : nat) (x : A) :
  nth_error l n = Some x -> firstn (S n) l = firstn n l ++ [x].
Proof.
  revert n. induction l as [|a l IH]; intros [|n] H; try discriminate.
  - cbn in H. injection H as ->. reflexivity.
  - cbn in H. change (a :: firstn (S n) l = (a :: firstn n l) ++ [x]).
    rewrite (IH n H). reflexivity.
Qed.

Lemma index_nth_error {A} (l : list A) (n : nat) (x : A) :
  Py.index l (Z.of_nat n) = Some x -> nth_error l n = Some x.
Proof.
  unfold Py.index. destruct (0 <=? Z.of_nat n) eqn:E;
    [|apply Z.leb_gt in E; lia].
  now rewrite Nat2Z.id.
Qed.

Lemma lstrip_idem s : Py.lstrip (Py.lstrip s) = Py.lstrip s.
Proof.
  induction s as [|c r IH]; [reflexivity|].
  cbn [Py.lstrip]. destruct (Py.isspace c) eqn:Hc; [exact IH|].
  cbn [Py.lstrip]. now rewrite Hc.
Qed.

Lemma strip_idem s : Py.strip (Py.strip s) = Py.strip s.
Proof.
  unfold Py.strip. now rewrite lstrip_rstrip, lstrip_idem, rstrip_idem.
Qed.

Lemma truthy_nonempty s : Py.truthy s = true <-> s <> "".
Proof. destruct s; cbn; split; congruence. Qed.

Lemma trimmed_lines_clean lines : Forall clean (trimmed_lines lines).
Proof.
  unfold trimmed_lines. induction lines as [|l lines IH]; [constructor|].
  cbn [map filter]. destruct (Py.truthy (Py.strip l)) eqn:T; [|exact IH].
  constructor; [|exact IH].
  split; [now apply truthy_nonempty|apply strip_idem].
Qed.

Lemma Forall_repeat {A} (P : A -> Prop) (x : A) (n : nat) :
  P x -> Forall P (repeat x n).
Proof. intros H. induction n; cbn; constructor; auto. Qed.

Lemma Forall_first {A} (P : A -> Prop) (n : nat) (l : list A) :
  Forall P l -> Forall P (firstn n l).
Proof.
  intros H. revert n. induction H as [|a l Ha Hl IH]; intros [|n]; cbn;
    constructor; auto.
Qed.

Lemma generated_clean role ty count dom response :
  Forall clean (fst (generate_llm_questions_gemini role ty count dom response)).
Proof.
  destruct response; cbn [generate_llm_questions_gemini fst].
  - apply Forall_repeat. split; [discriminate|reflexivity].
  - apply Forall_repeat. split; [discriminate|reflexivity].
  - rewrite question_lines_trimmed. unfold Py.slice_to.
    destruct (0 <=? count); apply Forall_first, trimmed_lines_clean.
Qed.

End Contents.

(** X7.  The responses follow the questions: in every reachable store the
    questions of the recorded responses are the first questions of the
    list, in order, one response per question, and no recorded answer is
    empty. *)
Theorem responses_follow_questions
    (s : session_state) (rs : list AnswerRecord) (qs : list string) :
  reachable s -> all_responses s = Some rs -> questions s = Some qs ->
  map question rs = firstn (List.length rs) qs /\
  Forall (fun r => answer r <> "") rs.
Proof.
  intros R. revert rs qs.
  induction R as [|s u R IH]; intros rs qs Hr Hq; [discriminate|].
  pose proof (reachable_consistent s R) as C.
  unfold after in Hr, Hq. rewrite (run_machine s u R) in Hr, Hq.
  unfold machine in Hr, Hq. destruct (phase_of s) eqn:P.
  - assert (rs = []) as ->.
    { destruct (clicked u) as [[]|]; cbn in Hr; try congruence.
      destruct (generation_succeeded _); cbn in Hr; congruence. }
    split; [reflexivity|constructor].
  - destruct (in_progress_shape s C P)
      as (rs0 & qs0 & cur & jr & d & ty & n & q & -> & L & Hi).
    destruct (IH rs0 qs0 eq_refl eq_refl) as [IH1 IH2].
    unfold current_question in Hr, Hq.
    cbn [questions current_question_idx] in Hr, Hq. rewrite Hi in Hr, Hq.
    pose proof (index_nth_error qs0 (List.length rs0) q Hi) as N.
    assert (Step : forall a f,
      a <> "" ->
      map question (rs0 ++ [mkRecord q a f])
      = firstn (List.length (rs0 ++ [mkRecord q a f])) qs0 /\
      Forall (fun r => answer r <> "") (rs0 ++ [mkRecord q a f])).
    { intros a f Ha. split.
      - rewrite map_app, length_app, Nat.add_1_r, (firstn_snoc _ _ _ N), IH1.
        reflexivity.
      - apply Forall_app. split; [exact IH2|]. repeat constructor. exact Ha. }
    destruct (clicked u) as [[]|]; cbn in Hr, Hq;
      try (injection Hr as <-; injection Hq as <-; now split).
    + destruct (Py.truthy (input_answer u)) eqn:T; cbn in Hr, Hq;
        injection Hr as <-; injection Hq as <-; [|now split].
      apply Step. now apply truthy_nonempty.
    + injection Hr as <-. injection Hq as <-. apply Step. discriminate.
  - destruct (clicked u) as [[]|]; cbn in Hr, Hq;
      try discriminate; try (now apply IH).
    destruct (fst (report u s)); cbn in Hr, Hq; now apply IH.
  - destruct (clicked u) as [[]|]; cbn in Hr, Hq;
      try discriminate; now apply IH.
Qed.

Lemma summary_responses_follow :
  map question (match all_responses summary with Some rs => rs | None => [] end)
  = firstn (List.length (match all_responses summary with
                         | Some rs => rs | None => [] end))
           (match questions summary with Some qs => qs | None => [] end) /\
  Forall (fun r => answer r <> "")
         (match all_responses summary with Some rs => rs | None => [] end).
Proof.
  apply (responses_follow_questions summary).
  - unfold summary, third_question, second_question, first_question.
    repeat constructor.
  - vm_compute. reflexivity.
  - vm_compute. reflexivity.
Defined.

(** X8.  Every question in the store is clean: it is not empty and has no
    whitespace around it.  In a started interview there is at least one
    question, no more than the slider asked, and the first does not
    contain the failure marker. *)
Theorem questions_are_clean (s : session_state) (qs : list string) :
  reachable s -> questions s = Some qs ->
  Forall clean qs /\
  (interview_started s = Some true ->
   generation_succeeded qs = true /\
   exists n, num_questions s = Some n /\ 1 <= Py.len qs <= n /\ n <= 10).
Proof.
  intros R. revert qs.
  induction R as [|s u R IH]; intros qs Hq; [discriminate|].
  pose proof (reachable_consistent s R) as C.
  pose proof (slider_bounds (input_num_questions u)) as B.
  unfold after in Hq |- *. rewrite (run_machine s u R) in Hq |- *.
  unfold machine in Hq |- *. destruct (phase_of s) eqn:P.
  - destruct (clicked u) as [[]|]; cbn in Hq |- *.
    1: { destruct (generation_succeeded (fst (generation u))) eqn:G;
           cbn in Hq |- *; injection Hq as <-;
           (split; [apply generated_clean|]); [|discriminate].
         intros _. split; [exact G|]. eexists. split; [reflexivity|].
         pose proof (generate_len (input_job_role u) (mode_label (input_mode u))
                       (slider_int (input_num_questions u)) (input_domain u)
                       (model u) ltac:(lia)) as GL.
         fold (generation u) in GL.
         destruct (fst (generation u)) as [|q0 g]; [discriminate|].
         rewrite len_cons in *. pose proof (len_nonneg g). lia. }
    all: injection Hq as <-; (split; [|discriminate]);
      destruct (questions s) as [q0|] eqn:Q; [now apply IH|constructor].
  - destruct (in_progress_shape s C P)
      as (rs0 & qs0 & cur & jr & d & ty & n & q & -> & L & Hi).
    destruct (IH qs0 eq_refl) as [IH1 IH2].
    unfold current_question in Hq |- *.
    cbn [questions current_question_idx] in Hq |- *. rewrite Hi in Hq |- *.
    destruct (clicked u) as [[]|]; cbn in Hq |- *;
      try (injection Hq as <-; split; [exact IH1|exact IH2]).
    destruct (Py.truthy (input_answer u)); cbn in Hq |- *;
      injection Hq as <-; split; [exact IH1|exact IH2|exact IH1|exact IH2].
  - destruct (clicked u) as [[]|]; cbn in Hq |- *;
      try discriminate; try (now apply IH).
    destruct (fst (report u s)); cbn in Hq |- *; now apply IH.
  - destruct (clicked u) as [[]|]; cbn in Hq |- *;
      try discriminate; now apply IH.
Qed.

Lemma first_question_clean :
  Forall clean (match questions first_question with
                | Some qs => qs | None => [] end) /\
  (interview_started first_question = Some true ->
   generation_succeeded (match questions first_question with
                         | Some qs => qs | None => [] end) = true /\
   exists n, num_questions first_question = Some n /\
             1 <= Py.len (match questions first_question with
                          | Some qs => qs | None => [] end) <= n /\
             n <= 10).
Proof.
  apply (questions_are_clean first_question).
  - unfold first_question. repeat constructor.
  - vm_compute. reflexivity.
Defined.

(* ================================================================= *)
(** ** Start, voice, submit and report *)

Section Start.

Lemma generation_text u text :
  model u = Text text ->
  fst (generation u)
  = firstn (Z.to_nat (slider_int (input_num_questions u)))
           (trimmed_lines (Py.split_lines text)).
Proof.
  intros E. unfold generation. rewrite E.
  cbn [generate_llm_questions_gemini fst]. rewrite question_lines_trimmed.
  unfold Py.slice_to. pose proof (slider_bounds (input_num_questions u)).
  destruct (0 <=? _) eqn:K; [reflexivity|apply Z.leb_gt in K; lia].
Qed.

Lemma generation_succeeded_firstn (n : nat) (l : list string) :
  (0 < n)%nat ->
  generation_succeeded (firstn n l) = generation_succeeded l.
Proof. intros H. destruct n; [lia|]. now destruct l. Qed.

End Start.

(** X9.  A click on the start button in the setup phase starts the
    interview exactly when the model answers with text that has a
    non-blank line and whose first non-blank line, trimmed, does not
    contain [Could not generate]; the questions are then the first lines
    of the trimmed response, as many as the slider asks.  (A response
    whose first question happens to contain the marker is refused.) *)
Theorem start_succeeds_iff (s : session_state) (u : run) :
  reachable s -> phase_of s = Setup -> clicked u = Some StartInterview ->
  (interview_started (after u s) = Some true <->
   exists text first rest,
     model u = Text text /\
     trimmed_lines (Py.split_lines text) = first :: rest /\
     Py.contains failure_marker first = false) /\
  (interview_started (after u s) = Some true ->
   phase_of (after u s) = InProgress /\
   exists text,
     model u = Text text /\
     questions (after u s)
     = Some (firstn (Z.to_nat (slider_int (input_num_questions u)))
                    (trimmed_lines (Py.split_lines text)))).
Proof.
  intros R P Hc. unfold after. rewrite (run_machine s u R).
  unfold machine. rewrite P, Hc.
  pose proof (slider_bounds (input_num_questions u)) as B.
  assert (N : (0 < Z.to_nat (slider_int (input_num_questions u)))%nat) by lia.
  destruct (generation_succeeded (fst (generation u))) eqn:G; cbn [fst snd].
  - assert (exists text, model u = Text text) as [text E].
    { destruct (model u) as [e| |text] eqn:E; eauto.
      - rewrite failed_call_fails in G; [discriminate|]. right. eauto.
      - rewrite failed_call_fails in G; [discriminate|]. now left. }
    rewrite (generation_text u text E) in G |- *.
    rewrite (generation_succeeded_firstn _ _ N) in G.
    split; [split; [intros _|reflexivity]|intros _; split].
    + destruct (trimmed_lines (Py.split_lines text)) as [|first rest] eqn:T;
        [discriminate|].
      exists text, first, rest. repeat split; trivial.
      cbn in G. now apply negb_true_iff in G.
    + apply phase_of_started_setup.
      now rewrite (generation_succeeded_firstn _ _ N).
    + exists text. split; [exact E|reflexivity].
  - split; [split; [discriminate|]|discriminate].
    intros (text & first & rest & E & T & F). exfalso.
    rewrite (generation_text u text E),
      (generation_succeeded_firstn _ _ N), T in G.
    cbn in G. unfold failure_marker in F. rewrite F in G. discriminate.
Qed.

Lemma backend_start_succeeds :
  (interview_started (after backend_start empty) = Some true <->
   exists text first rest,
     model backend_start = Text text /\
     trimmed_lines (Py.split_lines text) = first :: rest /\
     Py.contains failure_marker first = false) /\
  (interview_started (after backend_start empty) = Some true ->
   phase_of (after backend_start empty) = InProgress /\
   exists text,
     model backend_start = Text text /\
     questions (after backend_start empty)
     = Some (firstn (Z.to_nat (slider_int (input_num_questions backend_start)))
                    (trimmed_lines (Py.split_lines text)))).
Proof.
  apply (start_succeeds_iff empty backend_start).
  - constructor.
  - reflexivity.
  - reflexivity.
Defined.

(** X10.  A second click on the start button after a failed generation
    behaves as if the failed one had never happened: the sentinel
    questions left in the store are overwritten and the outcome of the run
    is the same. *)
Theorem failed_start_leaves_no_mark (s : session_state) (u1 u2 : run) :
  reachable s -> phase_of s = Setup ->
  clicked u1 = Some StartInterview ->
  interview_started (after u1 s) <> Some true ->
  clicked u2 = Some StartInterview ->
  interview_page u2 (after u1 s) = interview_page u2 s.
Proof.
  intros R P H1 F H2.
  assert (E : after u1 s
              = set_questions (fst (generation u1)) (configured u1 s)).
  { unfold after in F |- *. rewrite (run_machine s u1 R) in F |- *.
    unfold machine in F |- *. rewrite P, H1 in F |- *.
    destruct (generation_succeeded (fst (generation u1)));
      [now destruct F|reflexivity]. }
  rewrite (run_machine (after u1 s) u2 (reach_run s u1 R)).
  rewrite (run_machine s u2 R), E.
  unfold machine. rewrite H2, P.
  replace (phase_of (set_questions (fst (generation u1)) (configured u1 s)))
    with Setup by reflexivity.
  reflexivity.
Qed.

Lemma blocked_then_backend_start :
  interview_page backend_start (after blocked_start empty)
  = interview_page backend_start empty.
Proof.
  apply (failed_start_leaves_no_mark empty blocked_start backend_start).
  - constructor.
  - reflexivity.
  - reflexivity.
  - vm_compute. discriminate.
  - reflexivity.
Defined.

(** X11.  A click on the voice button while the interview is in progress
    touches nothing but the pending answer: it becomes the recognised
    text, or the empty string when recognition fails; the responses, the
    index and the phase stay, the model is not called, and the run asks
    for a rerun. *)
Theorem voice_sets_pending_answer (s : session_state) (u : run) :
  reachable s -> phase_of s = InProgress ->
  clicked u = Some AnswerWithVoice ->
  ending u s = inr RerunException /\
  after u s
  = set_current_user_answer
      (match microphone u with Recognized text => text | _ => "" end) s /\
  phase_of (after u s) = InProgress /\
  model_calls (trace_of u s) = 0%nat.
Proof.
  intros R P Hc. unfold ending, after, trace_of.
  rewrite (run_machine s u R). unfold machine. rewrite P, Hc. cbn [fst snd].
  rewrite recognition_calls_nothing. repeat split.
  - now destruct (microphone u).
  - exact P.
Qed.

Lemma first_question_voice_failed :
  ending (mkRun (Some AnswerWithVoice) "" "" BehavioralInterview
                (mkSlider 5 eq_refl) "typed" Blocked RequestError)
         first_question = inr RerunException /\
  after (mkRun (Some AnswerWithVoice) "" "" BehavioralInterview
               (mkSlider 5 eq_refl) "typed" Blocked RequestError)
        first_question
  = set_current_user_answer
      (match microphone (mkRun (Some AnswerWithVoice) "" ""
                               BehavioralInterview (mkSlider 5 eq_refl)
                               "typed" Blocked RequestError) with
       | Recognized text => text | _ => "" end) first_question /\
  phase_of (after (mkRun (Some AnswerWithVoice) "" "" BehavioralInterview
                         (mkSlider 5 eq_refl) "typed" Blocked RequestError)
                  first_question) = InProgress /\
  model_calls (trace_of (mkRun (Some AnswerWithVoice) "" ""
                               BehavioralInterview (mkSlider 5 eq_refl)
                               "typed" Blocked RequestError)
                        first_question) = 0%nat.
Proof.
  apply (voice_sets_pending_answer first_question).
  - unfold first_question. repeat constructor.
  - vm_compute. reflexivity.
  - reflexivity.
Defined.

(** X12.  A submit of a non-empty answer always advances, whatever the
    model does: it calls the model once and appends the record of the
    current question with the answer typed and, as feedback, the trimmed
    text of the model, or a fixed sentence when the evaluation was blocked
    or failed; such a sentence carries no score. *)
Theorem submit_always_advances
    (s : session_state) (u : run) (rs : list AnswerRecord) :
  reachable s -> phase_of s = InProgress ->
  clicked u = Some SubmitAnswer -> input_answer u <> "" ->
  all_responses s = Some rs ->
  exists q,
    current_question s = Some q /\
    ending u s = inr RerunException /\
    model_calls (trace_of u s) = 1%nat /\
    all_responses (after u s)
    = Some (rs ++ [mkRecord q (input_answer u) (recorded_feedback (model u))]) /\
    current_question_idx (after u s) = Some (Py.len rs + 1) /\
    ((forall text, model u <> Text text) ->
     first_score (mkRecord q (input_answer u) (recorded_feedback (model u)))
     = None).
Proof.
  intros R P Hc Ha Hr. pose proof (reachable_consistent s R) as C.
  apply truthy_nonempty in Ha.
  unfold ending, after, trace_of. rewrite (run_machine s u R).
  unfold machine. rewrite P, Hc.
  destruct (in_progress_shape s C P)
    as (rs0 & qs0 & cur & jr & d & ty & n & q & -> & L & Hi).
  cbn in Hr. injection Hr as ->.
  unfold current_question. cbn [questions current_question_idx].
  rewrite Hi, Ha. cbn [fst snd]. exists q.
  rewrite evaluation_calls_once.
  assert (F : fst (evaluation u (mkState (Some true) (Some rs)
                (Some (Py.len rs)) (Some qs0) (Some cur) (Some None) (Some jr)
                (Some d) (Some ty) (Some n)) q)
              = recorded_feedback (model u)).
  { unfold evaluation. now destruct (model u). }
  rewrite F. repeat split.
  intros NT. destruct (model u) as [e| |text]; [reflexivity..|].
  now destruct (NT text).
Qed.

Lemma first_question_submit_blocked :
  exists q,
    current_question first_question = Some q /\
    ending (click SubmitAnswer "A lock." Blocked) first_question
    = inr RerunException /\
    model_calls (trace_of (click SubmitAnswer "A lock." Blocked) first_question)
    = 1%nat /\
    all_responses (after (click SubmitAnswer "A lock." Blocked) first_question)
    = Some ([] ++ [mkRecord q
                     (input_answer (click SubmitAnswer "A lock." Blocked))
                     (recorded_feedback
                        (model (click SubmitAnswer "A lock." Blocked)))]) /\
    current_question_idx (after (click SubmitAnswer "A lock." Blocked)
                                first_question)
    = Some (Py.len (@nil AnswerRecord) + 1) /\
    ((forall text, model (click SubmitAnswer "A lock." Blocked) <> Text text) ->
     first_score (mkRecord q
                    (input_answer (click SubmitAnswer "A lock." Blocked))
                    (recorded_feedback
                       (model (click SubmitAnswer "A lock." Blocked))))
     = None).
Proof.
  apply (submit_always_advances first_question
           (click SubmitAnswer "A lock." Blocked) []).
  - unfold first_question. repeat constructor.
  - vm_compute. reflexivity.
  - reflexivity.
  - discriminate.
  - vm_compute. reflexivity.
Defined.



Section Average.

Lemma printed_average_prompt role ty records :
  report_prompt role ty records
  = match printed_average records with
    | inl average => inl (report_text role ty records average)
    | inr e => inr e
    end.
Proof.
  rewrite report_prompt_spec. unfold printed_average.
  destruct (scores_within_limit records); [|reflexivity].
  now destruct (avg_score _ _).
Qed.

Lemma parsed_scores_app rs1 rs2 :
  parsed_scores (rs1 ++ rs2) = parsed_scores rs1 ++ parsed_scores rs2.
Proof. unfold parsed_scores. apply flat_map_app. Qed.


End Average.

(** X14.  A record whose feedback has no score does not count in the
    average: the prompt of a list of records prints the average of the
    list without that record, and raises what that average raises.  The
    feedback of a skipped question, of a blocked evaluation and of a
    failed one are such feedbacks. *)
Theorem unscored_records_do_not_count
    (role ty : string) (before after_it : list AnswerRecord)
    (record : AnswerRecord) :
  feedback record = "No feedback."%string \/
  feedback record = recorded_feedback Blocked \/
  feedback record = recorded_feedback (Raises "") \/
  first_score record = None ->
  report_prompt role ty (before ++ record :: after_it)
  = match printed_average (before ++ after_it) with
    | inl average =>
        inl (report_text role ty (before ++ record :: after_it) average)
    | inr e => inr e
    end.
Proof.
  intros H.
  assert (N : first_score record = None).
  { unfold first_score.
    destruct H as [-> | [-> | [-> | H]]]; trivial. }
  rewrite printed_average_prompt. unfold printed_average.
  replace (scores_within_limit (before ++ record :: after_it))
    with (scores_within_limit (before ++ after_it)).
  2:{ rewrite !scores_within_limit_app, scores_within_limit_cons.
      now rewrite (within_digit_limit_unscored record N). }
  replace (parsed_scores (before ++ record :: after_it))
    with (parsed_scores (before ++ after_it)); [reflexivity|].
  rewrite !parsed_scores_app. f_equal.
  unfold parsed_scores at 2. cbn [flat_map]. now rewrite N.
Qed.

Lemma skipped_record_does_not_count :
  report_prompt "Backend Engineer" technical
    ([mkRecord "Q1" "A1" feedback_seven]
     ++ mkRecord "Q2" "Skipped" "No feedback."
     :: [mkRecord "Q3" "A3" feedback_six])
  = match printed_average ([mkRecord "Q1" "A1" feedback_seven]
                           ++ [mkRecord "Q3" "A3" feedback_six]) with
    | inl average =>
        inl (report_text "Backend Engineer" technical
               ([mkRecord "Q1" "A1" feedback_seven]
                ++ mkRecord "Q2" "Skipped" "No feedback."
                :: [mkRecord "Q3" "A3" feedback_six]) average)
    | inr e => inr e
    end.
Proof.
  apply (unscored_records_do_not_count "Backend Engineer" technical
           [mkRecord "Q1" "A1" feedback_seven]
           [mkRecord "Q3" "A3" feedback_six]
           (mkRecord "Q2" "Skipped" "No feedback.")).
  left. reflexivity.
Defined.



(* ================================================================= *)
(** ** The score pattern, the count and the prompt *)

Section Pattern.

Lemma match_score_at_none s :
  Py.match_score_at s = None <-> forall d, ~ reads_score s d.
Proof.
  split.
  - intros N d H. apply match_score_at_spec in H. congruence.
  - intros H. destruct (Py.match_score_at s) as [d|] eqn:M; [|reflexivity].
    apply match_score_at_spec in M. now destruct (H d).
Qed.

End Pattern.

(** X16.  The score of a record is read at the leftmost place of its
    feedback where the text reads [Score: ], digits, [/10]: it is the
    integer of all the digits there, whatever follows [/10]; and a record
    has a score only if its feedback has such a place. *)
Theorem score_is_read_at_leftmost_match (record : AnswerRecord) (n : Z) :
  first_score record = Some n <->
  exists before from digits,
    feedback record = (before ++ from)%string /\
    reads_score from digits /\
    n = Py.decimal digits /\
    forall before' from' digits',
      feedback record = (before' ++ from')%string ->
      (String.length before' < String.length before)%nat ->
      ~ reads_score from' digits'.
Proof.
  unfold first_score. split.
  - destruct (Py.search_score (feedback record)) as [d|] eqn:E; [|discriminate].
    intros [= <-]. apply search_score_leftmost in E
      as (before & from & E & M & Least).
    exists before, from, d.
    split; [exact E|]. split; [now apply match_score_at_spec in M|].
    split; [reflexivity|].
    intros before' from' digits' E' L.
    now apply match_score_at_none, (Least before' from').
  - intros (before & from & digits & E & M & -> & Least).
    replace (Py.search_score (feedback record)) with (Some digits);
      [reflexivity|].
    symmetry. apply search_score_leftmost.
    exists before, from.
    split; [exact E|]. split; [now apply match_score_at_spec|].
    intros before' from' E' L. apply match_score_at_none.
    intros d. now apply (Least before' from').
Qed.



(** Both cases occur with the count [-1]: a response of three lines gives
    its first two, a response of one line gives no question. *)
Example minus_one_on_three_lines_and_on_one :
  List.length
    (fst (generate_llm_questions_gemini "Backend Engineer" technical (-1) ""
            (Text three_questions))) = 2%nat /\
  fst (generate_llm_questions_gemini "Backend Engineer" technical (-1) ""
         (Text "What is a mutex?")) = [].
Proof. split; vm_compute; reflexivity. Qed.

Section Occurs.

Lemma append_assoc (a b c : string) :
  ((a ++ b) ++ c = a ++ b ++ c)%string.
Proof. induction a as [|x a IH]; cbn; [reflexivity|now rewrite IH]. Qed.

Lemma append_empty_r (a : string) : (a ++ "" = a)%string.
Proof. induction a as [|x a IH]; cbn; [reflexivity|now rewrite IH]. Qed.

Lemma occurs_contains p s : occurs p s -> Py.contains p s = true.
Proof.
  intros (a & b & ->). induction a as [|c a IH].
  - cbn [append]. destruct (p ++ b)%string eqn:E; cbn [Py.contains];
      rewrite <- ?E;
      now rewrite (proj2 (strip_prefix_spec p (p ++ b)%string b) eq_refl).
  - cbn [append Py.contains].
    destruct (Py.strip_prefix p (String c (a ++ p ++ b))); [reflexivity|].
    exact IH.
Qed.

Lemma occurs_refl p : occurs p p.
Proof. exists ""%string, ""%string. cbn. now rewrite append_empty_r. Qed.

Lemma occurs_left p s t : occurs p s -> occurs p (s ++ t)%string.
Proof.
  intros (a & b & ->). exists a, (b ++ t)%string.
  now rewrite !append_assoc.
Qed.

Lemma occurs_right p s t : occurs p s -> occurs p (t ++ s)%string.
Proof.
  intros (a & b & ->). exists (t ++ a)%string, b. now rewrite !append_assoc.
Qed.

Lemma occurs_trans p q s : occurs p q -> occurs q s -> occurs p s.
Proof.
  intros (a & b & ->) (c & d & ->).
  exists (c ++ a)%string, (b ++ d)%string. now rewrite !append_assoc.
Qed.

Lemma join_occurs sep parts x : In x parts -> occurs x (Py.join sep parts).
Proof.
  induction parts as [|p parts IH]; [contradiction|].
  intros [-> | H].
  - destruct parts as [|p' parts]; [apply occurs_refl|].
    cbn [Py.join]. apply occurs_left, occurs_refl.
  - destruct parts as [|p' parts]; [contradiction|].
    change (Py.join sep (p :: p' :: parts))
      with (p ++ sep ++ Py.join sep (p' :: parts))%string.
    apply occurs_right, occurs_right, IH, H.
Qed.

Lemma interaction_occurs record :
  occurs (question record) (interaction record) /\
  occurs (answer record) (interaction record) /\
  occurs (feedback record) (interaction record).
Proof.
  unfold interaction. repeat split.
  - do 4 apply occurs_right. apply occurs_left, occurs_refl.
  - do 7 apply occurs_right. apply occurs_left, occurs_refl.
  - do 10 apply occurs_right. apply occurs_refl.
Qed.

End Occurs.

(** X18.  Nothing of the session is left out of the report request: the
    prompt contains the question, the answer and the feedback of every
    record. *)
Theorem report_prompt_holds_every_record
    (role ty : string) (records : list AnswerRecord) (prompt : string)
    (record : AnswerRecord) :
  report_prompt role ty records = inl prompt -> In record records ->
  Py.contains (question record) prompt = true /\
  Py.contains (answer record) prompt = true /\
  Py.contains (feedback record) prompt = true.
Proof.
  intros H I. rewrite report_prompt_spec in H.
  destruct (scores_within_limit records); [|discriminate].
  destruct (avg_score _ _) as [avg|]; [|discriminate]. injection H as <-.
  assert (O : occurs (interaction record)
                (report_text role ty records (Float.format_1f avg))).
  { unfold report_text. apply join_occurs.
    apply in_or_app. left. right. now apply in_map. }
  destruct (interaction_occurs record) as (Q & A & F).
  repeat split; apply occurs_contains; eapply occurs_trans; eauto.
Qed.

Lemma three_scores_prompt_holds_second :
  Py.contains (question (mkRecord "Q2" "A2" feedback_seven))
    (report_text "Backend Engineer" technical three_scores "6.7") = true /\
  Py.contains (answer (mkRecord "Q2" "A2" feedback_seven))
    (report_text "Backend Engineer" technical three_scores "6.7") = true /\
  Py.contains (feedback (mkRecord "Q2" "A2" feedback_seven))
    (report_text "Backend Engineer" technical three_scores "6.7") = true.
Proof.
  apply (report_prompt_holds_every_record "Backend Engineer" technical
           three_scores).
  - vm_compute. reflexivity.
  - right. left. reflexivity.
Defined.

(** X19.  The check of the API key adds no store: the stores that runs of
    [main] reach, with the key present at some runs and missing at
    others, are the stores that runs of [interview_page] reach; and a run
    without a key (unset or empty) shows its two notices, changes nothing
    and calls nothing, whatever was clicked. *)
Theorem main_reaches_the_same_stores :
  (forall s, reachable_by_main s <-> reachable s) /\
  (forall key u s,
     key = None \/ key = Some ""%string ->
     main key u s
     = (inl tt, s, [Notice Error missing_key_error; Notice Info missing_key_hint])).
Proof.
  split.
  - intros s. split.
    + induction 1 as [|s key u _ IH]; [constructor|].
      unfold main. destruct key as [[|c k]|]; cbn [Py.truthy]; trivial.
      now apply reach_run.
    + induction 1 as [|s u _ IH]; [constructor|].
      apply (main_run s (Some "key"%string) u IH).
  - intros key u s [-> | ->]; reflexivity.
Qed.

(** X20.  After a successful start and any number of advances the
    interview is in progress exactly while the advances are fewer than
    the questions that the model returned, which may be fewer than the
    slider asked, and in the summary phase from then on. *)
Theorem phase_counts_advances
    (s : session_state) (start : run) (us : list run) :
  reachable s -> phase_of s = Setup ->
  clicked start = Some StartInterview ->
  interview_started (after start s) = Some true ->
  Forall (fun u => is_advance u = true) us ->
  exists qs,
    questions (after start s) = Some qs /\
    1 <= Py.len qs <= slider_int (input_num_questions start) /\
    phase_of (run_all us (after start s))
    = if Py.len us <? Py.len qs then InProgress else Summary.
Proof.
  intros R P Hc St A. pose proof (reachable_consistent s R) as C.
  destruct (phase_after_advances s start us C P Hc St A) as (Q & B & _ & Ph).
  exists (fst (generation start)). repeat split; trivial.
  pose proof (step_consistent start s C) as C1.
  destruct C1 as [|started rs qs cur fr jr d ty n H1 H2 H3 H4 H6];
    [discriminate|].
  cbn in St, Q. injection St as ->. injection Q as ->.
  destruct H4 as [NE _]; [reflexivity|].
  destruct (fst (generation start)); [congruence|].
  rewrite len_cons. pose proof (len_nonneg l). lia.
Qed.

Lemma one_question_session_counts :
  exists qs,
    questions (after one_question_start empty) = Some qs /\
    1 <= Py.len qs <= slider_int (input_num_questions one_question_start) /\
    phase_of (run_all [click SkipQuestion "" Blocked]
                      (after one_question_start empty))
    = if Py.len [click SkipQuestion "" Blocked] <? Py.len qs
      then InProgress else Summary.
Proof.
  apply (phase_counts_advances empty one_question_start
           [click SkipQuestion "" Blocked]).
  - constructor.
  - reflexivity.
  - reflexivity.
  - vm_compute. reflexivity.
  - repeat constructor.
Defined.
